(** * gists-gone: bulk deletion of GitHub gists

    A shallow embedding of [gists_gone/gists_gone.py] and the properties its
    specification states about it.

    - Python values that come out of [response.json()] are a small universe
      [value]; subscripting, [next(iter(_))], [dict.get] and truthiness are
      written out with the exceptions Python raises.
    - [datetime.strptime] is library code: it is a variable of the section,
      and [strptime_padded] is an executable instance for zero-padded input.
    - Network calls, [sleep], [print], [input] and the progress bar are
      events appended to a trace by a state-and-exception monad [io].
    - The identifiers collected by [filter_gists] live in Python sets; they
      are kept abstract (any countable type) and the sets are [gset]s. *)

From Stdlib Require Import PrimFloat.
From Stdlib Require SpecFloat FloatOps FloatAxioms.
From stdpp Require Import base option list strings gmap sets pretty.

Local Open Scope string_scope.
Local Open Scope Z_scope.
Local Open Scope nat_scope.
Local Open Scope list_scope.

(** ** Exceptions and results *)

Inductive exn : Type :=
| TypeError
| ValueError
| KeyError
| IndexError
| StopIteration
| AttributeError
| UnboundLocalError
| HTTPError.

Inductive result (A : Type) : Type :=
| Ok (a : A)
| Raise (e : exn).
Arguments Ok {A} a.
Arguments Raise {A} e.

#[global] Instance exn_eq_dec : EqDecision exn.
Proof. solve_decision. Defined.

#[global] Instance result_ret : MRet result := @Ok.
#[global] Instance result_bind : MBind result := λ A B k m,
  match m with
  | Ok a => k a
  | Raise e => Raise e
  end.

(** ** JSON values as Python sees them *)

#[local] Set Warnings "-register-all".

Inductive value : Type :=
| VNone
| VBool (b : bool)
| VInt (n : Z)
| VFloat (f : float)
| VStr (s : string)
| VList (items : list value)
| VDict (items : list (string * value)).

(** [d.get(key)] on the entries of a dict, in insertion order. *)
Fixpoint dict_lookup (items : list (string * value)) (key : string) : option value :=
  match items with
  | [] => None
  | (k, v) :: items' => if String.eqb k key then Some v else dict_lookup items' key
  end.

(** [bool(v)]. *)
Definition truthy (v : value) : bool :=
  match v with
  | VNone => false
  | VBool b => b
  | VInt n => negb (n =? 0)%Z
  | VFloat f => negb (PrimFloat.eqb f 0%float)
  | VStr s => negb (String.eqb s "")
  | VList items => negb (length items =? 0)
  | VDict items => negb (length items =? 0)
  end.

(** [next(iter(v))]: the first key of a dict, the first element of a list,
    the first character of a string. *)
Definition next_iter (v : value) : result value :=
  match v with
  | VDict [] => Raise StopIteration
  | VDict ((k, _) :: _) => Ok (VStr k)
  | VList [] => Raise StopIteration
  | VList (x :: _) => Ok x
  | VStr EmptyString => Raise StopIteration
  | VStr (String c _) => Ok (VStr (String c EmptyString))
  | VNone | VBool _ | VInt _ | VFloat _ => Raise TypeError
  end.

(** A sequence index [i] into a sequence of length [len]; negative indexes
    count from the end. *)
Definition seq_index (len : nat) (i : Z) : option nat :=
  if (0 <=? i)%Z then (if (i <? Z.of_nat len)%Z then Some (Z.to_nat i) else None)
  else if (0 <=? i + Z.of_nat len)%Z then Some (Z.to_nat (i + Z.of_nat len))
  else None.

Fixpoint string_nth (s : string) (i : nat) : option string :=
  match s, i with
  | EmptyString, _ => None
  | String c _, O => Some (String c EmptyString)
  | String _ s', S i' => string_nth s' i'
  end.

Definition index_of_value (key : value) : option Z :=
  match key with
  | VInt i => Some i
  | VBool b => Some (if b then 1 else 0)%Z
  | _ => None
  end.

(** [obj[key]]. The keys of a JSON object are strings, so no other hashable
    key is ever found; a list or dict key is unhashable. *)
Definition subscript (obj key : value) : result value :=
  match obj with
  | VDict items =>
      match key with
      | VStr k => match dict_lookup items k with Some v => Ok v | None => Raise KeyError end
      | VList _ | VDict _ => Raise TypeError
      | _ => Raise KeyError
      end
  | VList items =>
      match index_of_value key with
      | Some i =>
          match seq_index (length items) i ≫= (λ n, items !! n) with
          | Some v => Ok v
          | None => Raise IndexError
          end
      | None => Raise TypeError
      end
  | VStr s =>
      match index_of_value key with
      | Some i =>
          match seq_index (String.length s) i ≫= string_nth s with
          | Some c => Ok (VStr c)
          | None => Raise IndexError
          end
      | None => Raise TypeError
      end
  | VNone | VBool _ | VInt _ | VFloat _ => Raise TypeError
  end.

(** [obj.get(key)]: only a dict has the method. *)
Definition get_method (obj : value) (key : string) : result value :=
  match obj with
  | VDict items => Ok (default VNone (dict_lookup items key))
  | _ => Raise AttributeError
  end.

(** ** JSON values as members of Python sets

    The identifiers that [create_gists] stores are JSON values, and
    [filter_gists] puts them in sets. For that, values are compared
    structurally and are countable: they are written as trees over their
    scalars, a float standing for its IEEE 754 decomposition. This is how
    Python hashes and compares the strings the API uses as identifiers.
    For other values Python differs: it takes [1], [True] and [1.0] for the
    same member, and a list or a mapping cannot be a member at all. What is
    said below of the identifiers that the command keeps is therefore said
    for identifiers that are strings. *)

#[global] Instance spec_float_eq_dec : EqDecision SpecFloat.spec_float.
Proof. solve_decision. Defined.

Definition spec_float_to_sum (x : SpecFloat.spec_float)
    : (bool + bool) + (unit + bool * positive * Z) :=
  match x with
  | SpecFloat.S754_zero s => inl (inl s)
  | SpecFloat.S754_infinity s => inl (inr s)
  | SpecFloat.S754_nan => inr (inl ())
  | SpecFloat.S754_finite s m e => inr (inr (s, m, e))
  end.

Definition spec_float_of_sum (x : (bool + bool) + (unit + bool * positive * Z))
    : SpecFloat.spec_float :=
  match x with
  | inl (inl s) => SpecFloat.S754_zero s
  | inl (inr s) => SpecFloat.S754_infinity s
  | inr (inl _) => SpecFloat.S754_nan
  | inr (inr (s, m, e)) => SpecFloat.S754_finite s m e
  end.

#[global] Instance spec_float_countable : Countable SpecFloat.spec_float.
Proof.
  refine (inj_countable' spec_float_to_sum spec_float_of_sum _).
  intros []; reflexivity.
Defined.

#[global] Instance float_eq_dec : EqDecision float.
Proof.
  intros x y. destruct (decide (FloatOps.Prim2SF x = FloatOps.Prim2SF y)) as [Heq|Hne].
  - left. rewrite <- (FloatAxioms.SF2Prim_Prim2SF x), <- (FloatAxioms.SF2Prim_Prim2SF y), Heq.
    reflexivity.
  - right. intros ->. apply Hne. reflexivity.
Defined.

#[global] Instance float_countable : Countable float :=
  inj_countable' FloatOps.Prim2SF FloatOps.SF2Prim FloatAxioms.SF2Prim_Prim2SF.

Definition leaf : Type := (bool + Z) + (float + string).

Fixpoint value_to_tree (v : value) : gen_tree leaf :=
  match v with
  | VNone => GenNode 0 []
  | VBool b => GenLeaf (inl (inl b))
  | VInt n => GenLeaf (inl (inr n))
  | VFloat f => GenLeaf (inr (inl f))
  | VStr s => GenLeaf (inr (inr s))
  | VList items => GenNode 1 (map value_to_tree items)
  | VDict items =>
      GenNode 2 (map (λ kv, GenNode 3 [GenLeaf (inr (inr (fst kv))); value_to_tree (snd kv)])
                     items)
  end.

Fixpoint tree_to_value (t : gen_tree leaf) : value :=
  match t with
  | GenLeaf (inl (inl b)) => VBool b
  | GenLeaf (inl (inr n)) => VInt n
  | GenLeaf (inr (inl f)) => VFloat f
  | GenLeaf (inr (inr s)) => VStr s
  | GenNode 1 ts => VList (map tree_to_value ts)
  | GenNode 2 ts =>
      VDict (map (λ t, match t with
                       | GenNode 3 [GenLeaf (inr (inr k)); tv] => (k, tree_to_value tv)
                       | _ => (EmptyString, VNone)
                       end) ts)
  | _ => VNone
  end.

Definition tree_to_value_to_tree : ∀ v, tree_to_value (value_to_tree v) = v.
Proof.
  fix IH 1. intros [| | | | |items|items]; cbn; try reflexivity.
  - f_equal. induction items as [|x items IHitems]; cbn; [reflexivity|].
    rewrite IH, IHitems. reflexivity.
  - f_equal. induction items as [|[k x] items IHitems]; cbn; [reflexivity|].
    rewrite IH, IHitems. reflexivity.
Qed.

#[global] Instance value_eq_dec : EqDecision value.
Proof.
  intros x y. destruct (decide (value_to_tree x = value_to_tree y)) as [Heq|Hne].
  - left. rewrite <- (tree_to_value_to_tree x), <- (tree_to_value_to_tree y), Heq.
    reflexivity.
  - right. intros ->. apply Hne. reflexivity.
Defined.

#[global] Instance value_countable : Countable value :=
  inj_countable' value_to_tree tree_to_value tree_to_value_to_tree.

(** ** Calendar dates *)

Record date : Type := mkDate { year : nat; month : nat; day : nat }.

Record datetime : Type :=
  mkDatetime { dt_date : date; hour : nat; minute : nat; second : nat }.

#[global] Instance date_eq_dec : EqDecision date.
Proof. solve_decision. Defined.

(** [d1 <= d2] on [datetime.date]: the order of (year, month, day). *)
Definition date_leb (d1 d2 : date) : bool :=
  if year d1 =? year d2 then
    if month d1 =? month d2 then day d1 <=? day d2
    else month d1 <? month d2
  else year d1 <? year d2.

(** ** An executable [strptime] for zero-padded input

    The program calls [datetime.strptime] with two formats only. This
    instance accepts exactly the zero-padded spellings of valid calendar
    dates and times; it is used to run the program on concrete input. *)

Definition digit_of (c : Ascii.ascii) : option nat :=
  let n := Ascii.nat_of_ascii c in
  if (48 <=? n) && (n <=? 57) then Some (n - 48) else None.

Fixpoint digits_value (acc : nat) (s : string) : option nat :=
  match s with
  | EmptyString => Some acc
  | String c s' => d ← digit_of c; digits_value (10 * acc + d) s'
  end.

(** The field of exactly [width] digits at offset [pos]. *)
Definition field (s : string) (pos width : nat) : option nat :=
  let f := String.substring pos width s in
  if String.length f =? width then digits_value 0 f else None.

Definition literal (s : string) (pos : nat) (lit : string) : option unit :=
  if String.eqb (String.substring pos (String.length lit) s) lit then Some () else None.

Definition leap_year (y : nat) : bool :=
  ((y mod 4 =? 0) && negb (y mod 100 =? 0)) || (y mod 400 =? 0).

Definition days_in_month (y m : nat) : nat :=
  match m with
  | 2 => if leap_year y then 29 else 28
  | 4 | 6 | 9 | 11 => 30
  | _ => 31
  end.

Definition valid_date (d : date) : bool :=
  (1 <=? year d) && (1 <=? month d) && (month d <=? 12)
  && (1 <=? day d) && (day d <=? days_in_month (year d) (month d)).

Definition parse_ymd (s : string) : option date :=
  y ← field s 0 4; _ ← literal s 4 "-";
  m ← field s 5 2; _ ← literal s 7 "-";
  d ← field s 8 2;
  let r := mkDate y m d in
  if valid_date r then Some r else None.

Definition strptime_padded (s fmt : string) : option datetime :=
  if String.eqb fmt "%Y-%m-%d" then
    if String.length s =? 10 then d ← parse_ymd s; Some (mkDatetime d 0 0 0) else None
  else if String.eqb fmt "%Y-%m-%dT%H:%M:%SZ" then
    if String.length s =? 20 then
      d ← parse_ymd s; _ ← literal s 10 "T";
      h ← field s 11 2; _ ← literal s 13 ":";
      mi ← field s 14 2; _ ← literal s 16 ":";
      se ← field s 17 2; _ ← literal s 19 "Z";
      if (h <? 24) && (mi <? 60) && (se <? 62) then Some (mkDatetime d h mi se) else None
    else None
  else None.

(** ** The record of the program *)

(** [Gist = namedtuple("Gist", ["id", "visibility", "language", "created_date"])].
    The tuple is untyped: [create_gists] stores whatever the response holds
    as [id] and [language]; the type of identifiers is a parameter. *)
Record Gist (Id : Type) : Type := mkGist {
  id : Id;
  visibility : string;
  language : value;
  created_date : date;
}.
Arguments mkGist {Id} id visibility language created_date.
Arguments id {Id} g.
Arguments visibility {Id} g.
Arguments language {Id} g.
Arguments created_date {Id} g.

(** ** Effects

    What the program does to the world is a trace of events, oldest first.
    A computation takes the trace so far and returns a value or the
    exception it raised, with the trace extended. *)

(** A response of the API: its status and its decoded body, [response.json()],
    a JSON array. *)
Record Response : Type := mkResponse { status_code : nat; json : list value }.

Inductive event : Type :=
| EvGet (per_page page : nat)
| EvDelete (url : string)
| EvSleep (seconds : nat)
| EvPrint (text : string)
| EvInput (prompt : string)
| EvBar (total : nat)
| EvBarTitle (title : string)
| EvBarTick.

#[global] Instance event_eq_dec : EqDecision event.
Proof. solve_decision. Defined.

Definition io (A : Type) : Type := list event → result A * list event.

#[global] Instance io_ret : MRet io := λ A a tr, (Ok a, tr).
#[global] Instance io_bind : MBind io := λ A B k m tr,
  match m tr with
  | (Ok a, tr') => k a tr'
  | (Raise e, tr') => (Raise e, tr')
  end.

Definition emit (e : event) : io unit := λ tr, (Ok (), tr ++ [e]).
Definition lift {A : Type} (r : result A) : io A := λ tr, (r, tr).
Definition run {A : Type} (m : io A) : result A * list event := m [].

Definition sleep (seconds : nat) : io unit := emit (EvSleep seconds).
Definition print (text : string) : io unit := emit (EvPrint text).

(** [response.raise_for_status()]: an error for a 4xx or 5xx status. *)
Definition raise_for_status (response : Response) : io unit :=
  lift (if (400 <=? status_code response) && (status_code response <? 600)
        then Raise HTTPError else Ok ()).

Definition is_get (e : event) : bool := match e with EvGet _ _ => true | _ => false end.
Definition is_delete (e : event) : bool := match e with EvDelete _ => true | _ => false end.
Definition is_sleep (e : event) : bool := match e with EvSleep _ => true | _ => false end.
Definition is_input (e : event) : bool := match e with EvInput _ => true | _ => false end.

(** ** Arguments of the command line *)

Record Args : Type := mkArgs { token : string; force : bool }.

(** An element of a list argument, and an argument of [relevant_args]:
    [--visibility] is a string, [--languages] a list of strings and
    [--date_range], once parsed, a list of dates. [None] is [option]'s. *)
Inductive item : Type :=
| IStr (s : string)
| IDate (d : date).

Inductive argument : Type :=
| ArgStr (s : string)
| ArgList (items : list item).

Definition isinstance_list (a : argument) : bool :=
  match a with ArgList _ => true | ArgStr _ => false end.

(** [argument == gist.visibility], the right side being a string. *)
Definition eq_visibility (a : argument) (v : string) : bool :=
  match a with ArgStr s => String.eqb s v | ArgList _ => false end.

(** [gist.language in argument]. *)
Definition language_in (l : value) (a : argument) : bool :=
  match a with
  | ArgList items =>
      existsb (λ it, match it, l with
                     | IStr s, VStr s' => String.eqb s' s
                     | _, _ => false
                     end) items
  | ArgStr _ => false
  end.

Definition len (a : argument) : nat :=
  match a with ArgList items => length items | ArgStr s => String.length s end.

(** [argument[i]] for a list argument. *)
Definition getitem (a : argument) (i : nat) : result item :=
  match a with
  | ArgList items => match items !! i with Some it => Ok it | None => Raise IndexError end
  | ArgStr s => match string_nth s i with Some c => Ok (IStr c) | None => Raise IndexError end
  end.

(** [d == it], [d >= it] and [d <= it] for a date [d]: a date is never
    equal to a string and cannot be ordered against one. *)
Definition date_eq_item (d : date) (it : item) : bool :=
  match it with IDate d' => bool_decide (d = d') | IStr _ => false end.
Definition date_ge_item (d : date) (it : item) : result bool :=
  match it with IDate d' => Ok (date_leb d' d) | IStr _ => Raise TypeError end.
Definition date_le_item (d : date) (it : item) : result bool :=
  match it with IDate d' => Ok (date_leb d d') | IStr _ => Raise TypeError end.

(** ** Concrete inputs

    Data used to run the program: raw entries as the API returns them, the
    three records of the specification's scenarios, and API behaviours. *)

Definition raw_entry (gist_id : string) (flag : option value) (label : value)
    (created_at : string) : value :=
  VDict ([("id", VStr gist_id)]
         ++ match flag with Some v => [("public", v)] | None => [] end
         ++ [("files", VDict [("main", VDict [("filename", VStr "main"); ("language", label)])]);
             ("created_at", VStr created_at)]).

Definition sample_json : list value :=
  [raw_entry "A" (Some (VBool false)) (VStr "Clojure") "2024-07-12T08:15:00Z";
   raw_entry "B" (Some (VBool true)) (VStr "Python") "2024-07-10T21:40:09Z";
   raw_entry "C" (Some (VBool true)) VNone "2024-07-10T06:00:30Z"].

(** Entries whose flag is missing, falsy or truthy without being a boolean. *)
Definition odd_flags_json : list value :=
  [raw_entry "D" None (VStr "Go") "2024-01-01T00:00:00Z";
   raw_entry "E" (Some VNone) (VStr "Go") "2024-01-01T00:00:00Z";
   raw_entry "F" (Some (VInt 0)) (VStr "Go") "2024-01-01T00:00:00Z";
   raw_entry "G" (Some (VStr "")) (VStr "Go") "2024-01-01T00:00:00Z";
   raw_entry "H" (Some (VStr "no")) (VStr "Go") "2024-01-01T00:00:00Z";
   raw_entry "I" (Some (VInt 7)) (VStr "Go") "2024-01-01T00:00:00Z"].

(** An entry with one file, as [raw_entry] makes them, but whose file
    carries no "language" entry at all. *)
Definition no_language_entry : list (string * value) :=
  [("id", VStr "J"); ("public", VBool true);
   ("files", VDict [("notes", VDict [("filename", VStr "notes")])]);
   ("created_at", VStr "2024-07-12T08:15:00Z")].

Definition no_language_json : list value := [VDict no_language_entry].

Definition sample_gists : list (Gist string) :=
  [mkGist "A" "secret" (VStr "Clojure") (mkDate 2024 7 12);
   mkGist "B" "public" (VStr "Python") (mkDate 2024 7 10);
   mkGist "C" "public" (VStr "Unknown") (mkDate 2024 7 10)].

(** An API whose every page holds 30 entries. *)
Definition full_pages (page : nat) : Response :=
  mkResponse 200
    (replicate 30 (raw_entry "A" (Some (VBool true)) (VStr "Python") "2024-07-10T21:40:09Z")).

(** An API that refuses to delete the gist "a" and deletes any other. *)
Definition refuses_a (history : list event) (url : string) : Response :=
  mkResponse (if String.eqb url "https://api.github.com/gists/a" then 500 else 204) [].

(** An API with a page of 30 entries, then a page of 2, then nothing. *)
Definition two_pages (page : nat) : Response :=
  match page with
  | 1 => full_pages 1
  | 2 => mkResponse 200 (take 2 sample_json)
  | _ => mkResponse 200 []
  end.

(** An API that rejects the token. *)
Definition forbidden (page : nat) : Response := mkResponse 403 [].

Definition four_dates : list string :=
  ["2024-01-01"; "2024-02-01"; "2024-03-01"; "2024-04-01"].

(** ** The program *)

Section Program.

#[local] Set Default Proof Using "Type".

(** Drops the variables of the section that a statement does not mention. *)
Ltac forget_unused := repeat match goal with x : _ |- _ => clear x end.

(** [datetime.strptime(string, format)]; [None] is its [ValueError]. *)
Variable strptime : string → string → option datetime.
(** The response of the API to the listing request for a page. *)
Variable api_get : nat → Response.
(** The response of the API to a delete request, given everything that
    happened before it and the URL. *)
Variable api_delete : list event → string → Response.
(** The line the user types at the confirmation prompt. *)
Variable typed : string.

Definition requests_get (page : nat) : io Response :=
  λ tr, (Ok (api_get page), tr ++ [EvGet 100 page]).

Definition requests_delete (url : string) : io Response :=
  λ tr, (Ok (api_delete tr url), tr ++ [EvDelete url]).

Definition input (prompt : string) : io string :=
  λ tr, (Ok typed, tr ++ [EvInput prompt]).

(** *** [parse_date_arguments] *)

Fixpoint parse_dates (date_arguments : list string) (dates : list date) : result (list date) :=
  match date_arguments with
  | [] => Ok dates
  | argument :: rest =>
      match strptime argument "%Y-%m-%d" with
      | Some dt => parse_dates rest (dates ++ [dt_date dt])
      | None => Raise ValueError
      end
  end.

Definition parse_date_arguments (date_arguments : list string) : result (list date) :=
  if length date_arguments =? 3 then Raise TypeError
  else parse_dates date_arguments [].

(** *** [create_gists] *)

(** The body of the loop: the gist made from one raw entry. *)
Definition create_gist (raw_gist : value) : result (Gist value) :=
  files ← subscript raw_gist (VStr "files");
  first ← next_iter files;
  file ← subscript files first;
  languages ← subscript file (VStr "language");
  let languages := match languages with VNone => VStr "Unknown" | _ => languages end in
  visibility ← get_method raw_gist "public";
  created_at ← subscript raw_gist (VStr "created_at");
  date_created ←
    match created_at with
    | VStr s =>
        match strptime s "%Y-%m-%dT%H:%M:%SZ" with
        | Some dt => Ok (dt_date dt)
        | None => Raise ValueError
        end
    | _ => Raise TypeError
    end;
  let visibility := if truthy visibility then "public" else "secret" in
  gist_id ← get_method raw_gist "id";
  Ok (mkGist gist_id visibility languages date_created).

Fixpoint create_gists_loop (json : list value) (gists : list (Gist value)) : result (list (Gist value)) :=
  match json with
  | [] => Ok gists
  | raw_gist :: rest =>
      gist ← create_gist raw_gist;
      create_gists_loop rest (gists ++ [gist])
  end.

Definition create_gists (json : list value) : result (list (Gist value)) :=
  create_gists_loop json [].

(** *** The fetch loop of [cli] *)

Fixpoint fetch_pages (pages : list nat) (gists : list (Gist value)) : io (list (Gist value)) :=
  match pages with
  | [] => mret gists
  | page :: rest =>
      response ← requests_get page;
      raise_for_status response;;
      page_gists ← lift (create_gists (json response));
      let gists := gists ++ page_gists in
      if length page_gists <? 30 then mret gists
      else sleep 1;; fetch_pages rest gists
  end.

(** [for page in range(1, 31): ...], starting from [gists = []]. *)
Definition cli_fetch : io (list (Gist value)) := fetch_pages (seq 1 30) [].

(** *** [filter_gists] and [delete_gists] *)

Context {Id : Type} `{Countable Id}.
(** [str(gist)] in the f-string that builds the URL of a delete request. *)
Variable str : Id → string.

(** The body of the inner loop: [matched_ids] after looking at [gist]. *)
Definition visit (index : nat) (arg : option argument) (gist : Gist Id)
    (matched_ids : list Id) : result (list Id) :=
  match arg with
  | None => Ok (matched_ids ++ [id gist])
  | Some a =>
      let matched_ids :=
        if (index =? 0) && eq_visibility a (visibility gist)
        then matched_ids ++ [id gist] else matched_ids in
      let matched_ids :=
        if (index =? 1) && isinstance_list a then
          if language_in (language gist) a then matched_ids ++ [id gist] else matched_ids
        else matched_ids in
      if (index =? 2) && isinstance_list a then
        if len a =? 1 then
          first ← getitem a 0;
          Ok (if date_eq_item (created_date gist) first
              then matched_ids ++ [id gist] else matched_ids)
        else
          first ← getitem a 0;
          ge ← date_ge_item (created_date gist) first;
          if ge : bool then
            second ← getitem a 1;
            le ← date_le_item (created_date gist) second;
            Ok (if le : bool then matched_ids ++ [id gist] else matched_ids)
          else Ok matched_ids
      else Ok matched_ids
  end.

Fixpoint match_gists (index : nat) (arg : option argument) (gists : list (Gist Id))
    (matched_ids : list Id) : result (list Id) :=
  match gists with
  | [] => Ok matched_ids
  | gist :: rest =>
      matched_ids ← visit index arg gist matched_ids;
      match_gists index arg rest matched_ids
  end.

(** [for index, argument in enumerate(relevant_args): ...]. *)
Fixpoint filter_loop (index : nat) (relevant_args : list (option argument))
    (gists : list (Gist Id)) (gist_ids : list (list Id)) : result (list (list Id)) :=
  match relevant_args with
  | [] => Ok gist_ids
  | arg :: rest =>
      matched_ids ← match_gists index arg gists [];
      filter_loop (S index) rest gists (gist_ids ++ [matched_ids])
  end.

(** The set of [first] intersected with every list of [others]:
    [set(gist_ids[0]).intersection] applied to the unpacked [gist_ids[1:]]. *)
Definition intersection (first : list Id) (others : list (list Id)) : gset Id :=
  foldl (λ acc ids, acc ∩ list_to_set ids) (list_to_set first) others.

(** [list(gist_ids)]: Python fixes no order for the members of a set.
    [elements] is one enumeration of them, each once; what is stated of a
    result is which identifiers it holds, never where. *)
Definition filter_gists (relevant_args : list (option argument)) (gists : list (Gist Id))
    : result (list Id) :=
  gist_ids ← filter_loop 0 relevant_args gists [];
  match gist_ids with
  | [] => Raise IndexError
  | first :: others => Ok (elements (intersection first others))
  end.

(** [for gist in gists: sleep(1); response = requests.delete(...)], with the
    binding of [response] when the loop is left. *)
Fixpoint delete_loop (gists : list Id) (response : option Response) : io (option Response) :=
  match gists with
  | [] => mret response
  | gist :: rest =>
      sleep 1;;
      response ← requests_delete ("https://api.github.com/gists/" +:+ str gist);
      delete_loop rest (Some response)
  end.

Definition delete_gists (args : Args) (gists : list Id) : io unit :=
  if length gists =? 0 then print "No gists are eligible for deletion."
  else
    proceed ←
      (if negb (force args) then
         print "[bold red]Are you [underline]sure[/underline] you proceed with the deletion?[/bold red]";;
         print ("[bold yellow]" +:+ pretty (length gists)
                +:+ "[/bold yellow] [bold red]gists will be deleted.[/bold red]");;
         answer ← input "[Y/n] ";
         mret (bool_decide (answer ∈ ["Yes"; "Y"; "y"]))
       else mret true);
    if proceed : bool then
      emit (EvBar (length gists));;
      emit (EvBarTitle "Deleting gists...");;
      response ← delete_loop gists None;
      match response with
      | Some response => raise_for_status response
      | None => lift (Raise UnboundLocalError)
      end;;
      emit EvBarTick;;
      print "[bold red]Gists have been deleted![/bold red]"
    else mret ().

(** ** What the specification talks about

    The definitions below follow the words of the specification; the
    theorems compare the program with them. *)

(** The URL of the delete request for an identifier. *)
Definition gist_url (gist : Id) : string := "https://api.github.com/gists/" +:+ str gist.

(** The affirmative answers. *)
Definition affirmative (answer : string) : Prop := answer ∈ ["Yes"; "Y"; "y"].


(** The events of the deletion loop: a wait, then the request, for each
    identifier in turn. *)
Definition delete_events (gists : list Id) : list event :=
  flat_map (λ gist, [EvSleep 1; EvDelete (gist_url gist)]) gists.

(** The events of the confirmation prompt for [n] identifiers. *)
Definition prompt_events (n : nat) : list event :=
  [EvPrint "[bold red]Are you [underline]sure[/underline] you proceed with the deletion?[/bold red]";
   EvPrint ("[bold yellow]" +:+ pretty n
            +:+ "[/bold yellow] [bold red]gists will be deleted.[/bold red]");
   EvInput "[Y/n] "].

(** A response that [raise_for_status] refuses. *)
Definition failed (response : Response) : bool :=
  (400 <=? status_code response) && (status_code response <? 600).

(** The records a page yields: an error when the response is not a success
    or an entry does not normalize. *)
Definition page_gists (page : nat) : result (list (Gist value)) :=
  if (400 <=? status_code (api_get page)) && (status_code (api_get page) <? 600)
  then Raise HTTPError
  else create_gists (json (api_get page)).

Definition gists_of (page : nat) : list (Gist value) :=
  match page_gists page with Ok gists => gists | Raise _ => [] end.

(** A page asks for the next one when it yields 30 records or more. *)
Definition continues (page : nat) : bool :=
  match page_gists page with
  | Ok gists => 30 <=? length gists
  | Raise _ => false
  end.

(** The number of pages requested out of [pages]: up to the first one that
    does not ask for the next, and all of them when there is none. *)
Definition requested (pages : list nat) : nat :=
  match list_find (λ page, continues page = false) pages with
  | Some (i, _) => S i
  | None => length pages
  end.

(** The hard cap: the pages are 1..30. *)
Definition pages_fetched : nat := requested (seq 1 30).

(** Requests for [n] pages from page [first] on, with one wait between
    successive ones. *)
Definition paced_from (first n : nat) : list event :=
  match n with
  | O => []
  | S n' => EvGet 100 first :: flat_map (λ page, [EvSleep 1; EvGet 100 page]) (seq (S first) n')
  end.

Definition paced_requests (n : nat) : list event := paced_from 1 n.

(** The three dimensions of the filter criteria, as the command line gives
    them, and [relevant_args] built from them. *)
Definition relevant_args_of (vis : option string) (languages : option (list string))
    (date_range : option (list date)) : list (option argument) :=
  [ArgStr <$> vis;
   (λ l, ArgList (IStr <$> l)) <$> languages;
   (λ l, ArgList (IDate <$> l)) <$> date_range].

Definition in_date_range (date_range : list date) (d : date) : Prop :=
  match date_range with
  | [] => False
  | [d1] => d = d1
  | d1 :: d2 :: _ => date_leb d1 d = true ∧ date_leb d d2 = true
  end.

(** A record satisfies every present dimension of the criteria. *)
Definition satisfies (vis : option string) (languages : option (list string))
    (date_range : option (list date)) (gist : Gist Id) : Prop :=
  (∀ v, vis = Some v → visibility gist = v)
  ∧ (∀ l, languages = Some l → ∃ s, language gist = VStr s ∧ s ∈ l)
  ∧ (∀ r, date_range = Some r → in_date_range r (created_date gist)).

(** The three dimensions as decisions on a record. *)
Definition visibility_ok (vis : option string) (gist : Gist Id) : bool :=
  match vis with
  | None => true
  | Some v => String.eqb v (visibility gist)
  end.

Definition language_ok (languages : option (list string)) (gist : Gist Id) : bool :=
  match languages with
  | None => true
  | Some l => language_in (language gist) (ArgList (IStr <$> l))
  end.

Definition date_ok (date_range : option (list date)) (gist : Gist Id) : bool :=
  match date_range with
  | None => true
  | Some [] => false
  | Some [d1] => bool_decide (created_date gist = d1)
  | Some (d1 :: d2 :: _) => date_leb d1 (created_date gist) && date_leb (created_date gist) d2
  end.

(** A raw entry as the API documents it: a mapping with a non-empty mapping
    of files whose first file has a language label (possibly null), and a
    creation timestamp that parses. *)
Definition well_formed_raw (raw_gist : value) : Prop :=
  ∃ entries name file files label created_at dt,
    raw_gist = VDict entries
    ∧ dict_lookup entries "files" = Some (VDict ((name, VDict file) :: files))
    ∧ dict_lookup file "language" = Some label
    ∧ dict_lookup entries "created_at" = Some (VStr created_at)
    ∧ strptime created_at "%Y-%m-%dT%H:%M:%SZ" = Some dt.

(** The label of the first file of a raw entry, its flag and its timestamp. *)
Definition first_language (raw_gist : value) : option value :=
  match raw_gist with
  | VDict entries =>
      match dict_lookup entries "files" with
      | Some (VDict ((_, VDict file) :: _)) => dict_lookup file "language"
      | _ => None
      end
  | _ => None
  end.

Definition field_of (raw_gist : value) (key : string) : option value :=
  match raw_gist with
  | VDict entries => dict_lookup entries key
  | _ => None
  end.

(** * Properties *)

(** ** The deletion loop *)

(** The loop issues one wait and one delete request per identifier, in
    order, whatever the responses are, and never raises. *)
Lemma delete_loop_trace (gists : list Id) (response : option Response) (tr : list event) :
  ∃ last_response,
    delete_loop gists response tr
    = (Ok last_response, tr ++ flat_map (λ g, [EvSleep 1; EvDelete (gist_url g)]) gists)
    ∧ (gists ≠ [] → is_Some last_response).
Proof.
  revert response tr. induction gists as [|g rest IH]; intros response tr.
  - exists response. simpl. rewrite app_nil_r. split; [reflexivity | congruence].
  - destruct (IH (Some (api_delete (tr ++ [EvSleep 1]) (gist_url g)))
                 ((tr ++ [EvSleep 1]) ++ [EvDelete (gist_url g)])) as (r & Hr & Hs).
    exists r. split.
    + cbn. unfold mbind, io_bind, sleep, emit, requests_delete. cbn.
      fold delete_loop. unfold gist_url in Hr. rewrite Hr.
      unfold gist_url. rewrite <- !app_assoc. reflexivity.
    + intros _. destruct rest as [|g' rest'].
      * cbn in Hr. inversion Hr. eauto.
      * apply Hs. congruence.
Qed.

(** Filtering a trace made of per-identifier blocks. *)
Lemma deletes_of_delete_trace (gists : list Id) :
  List.filter is_delete (flat_map (λ g, [EvSleep 1; EvDelete (gist_url g)]) gists)
  = (λ g, EvDelete (gist_url g)) <$> gists.
Proof.
  induction gists as [|g rest IH]; [reflexivity|].
  cbn. f_equal. exact IH.
Qed.

(** ** The deletion orchestrator *)

(** C9. With an empty collection of identifiers [delete_gists] only prints
    that there is nothing to delete: the trace gains that one message, so no
    request, no prompt and no wait happens, and no exception is raised. *)
Theorem delete_gists_nothing_to_delete (args : Args) (tr : list event) :
  ∃ evs,
    delete_gists args [] tr = (Ok (), tr ++ evs)
    ∧ evs = [EvPrint "No gists are eligible for deletion."]
    ∧ List.filter is_delete evs = []
    ∧ List.filter is_get evs = []
    ∧ List.filter is_input evs = []
    ∧ List.filter is_sleep evs = [].
Proof.
  eexists. split; [reflexivity|]. repeat split.
Qed.

Lemma Exists_is_delete (evs : list event) :
  Exists (λ e, is_delete e = true) evs ↔ List.filter is_delete evs ≠ [].
Proof.
  induction evs as [|e evs IH]; cbn.
  - split; [intros HE; inversion HE | congruence].
  - destruct (is_delete e) eqn:He.
    + split; [congruence | intros _; left; exact He].
    + rewrite <- IH. split.
      * intros HE. inversion HE; subst; [congruence | assumption].
      * intros HE. right. exact HE.
Qed.

(** C8. With identifiers to delete and [--force] unset, delete requests are
    issued exactly when the typed answer is one of "Yes", "Y" and "y"; then
    there is one request per identifier, in order. After any other answer
    the function returns normally with no request and no wait. *)
Theorem delete_gists_confirmation (args : Args) (gists : list Id) (tr : list event) :
  gists ≠ [] → force args = false →
  ∃ r evs,
    delete_gists args gists tr = (r, tr ++ evs)
    ∧ (Exists (λ e, is_delete e = true) evs ↔ affirmative typed)
    ∧ (affirmative typed →
       List.filter is_delete evs = (λ g, EvDelete (gist_url g)) <$> gists)
    ∧ (¬ affirmative typed →
       r = Ok () ∧ List.filter is_delete evs = [] ∧ List.filter is_sleep evs = []).
Proof.
  forget_unused.
  intros Hne Hforce. unfold delete_gists. rewrite Hforce.
  destruct (length gists =? 0) eqn:Hlen.
  { apply Nat.eqb_eq in Hlen. destruct gists; [congruence | discriminate]. }
  unfold mbind, io_bind, print, emit, input, mret, io_ret.
  cbn -[pretty String.app delete_loop elem_of].
  set (tr1 := ((tr ++ _) ++ _) ++ [EvInput _]).
  destruct (bool_decide (typed ∈ ["Yes"; "Y"; "y"])) eqn:Hyes.
  - apply bool_decide_eq_true in Hyes.
    destruct (delete_loop_trace gists None
                ((tr1 ++ [EvBar (length gists)]) ++ [EvBarTitle "Deleting gists..."]))
      as (last & Hloop & Hsome).
    rewrite Hloop. destruct (Hsome Hne) as [response ->].
    unfold raise_for_status, lift.
    assert (Hmap : (λ g, EvDelete (gist_url g)) <$> gists ≠ []).
    { destruct gists; [congruence | discriminate]. }
    destruct ((400 <=? status_code response) && (status_code response <? 600));
      do 2 eexists; (split; [unfold tr1; rewrite <- !app_assoc; reflexivity|]);
      rewrite Exists_is_delete, !List.filter_app, deletes_of_delete_trace; cbn;
      rewrite ?app_nil_r; (split; [|split]); tauto.
  - apply bool_decide_eq_false in Hyes.
    do 2 eexists. split; [unfold tr1; rewrite <- !app_assoc; reflexivity|].
    rewrite Exists_is_delete. cbn. unfold affirmative.
    split; [|split]; tauto.
Qed.

(** ** The fetch loop *)

Lemma requested_cons_stop (page : nat) (rest : list nat) :
  continues page = false → requested (page :: rest) = 1.
Proof.
  intros Hc. unfold requested. cbn. rewrite decide_True by exact Hc. reflexivity.
Qed.

Lemma requested_cons_continue (page : nat) (rest : list nat) :
  continues page = true → requested (page :: rest) = S (requested rest).
Proof.
  intros Hc. unfold requested. cbn. rewrite decide_False by congruence.
  destruct (list_find _ rest) as [[i p]|]; reflexivity.
Qed.

Lemma requested_cons_pos (page : nat) (rest : list nat) :
  ∃ k, requested (page :: rest) = S k.
Proof.
  destruct (continues page) eqn:Hc.
  - rewrite (requested_cons_continue _ _ Hc). eauto.
  - rewrite (requested_cons_stop _ _ Hc). eauto.
Qed.

(** What the loop over the pages [s], [s+1], ... does: the requests, the
    waits and the value it leaves. *)
Lemma fetch_pages_seq (len s : nat) (gists : list (Gist value)) (tr : list event) :
  fetch_pages (seq s len) gists tr
  = (match last (seq s (requested (seq s len))) with
     | None => Ok gists
     | Some page =>
         match page_gists page with
         | Ok _ => Ok (gists ++ flat_map gists_of (seq s (requested (seq s len))))
         | Raise e => Raise e
         end
     end,
     tr ++ paced_from s (requested (seq s len))
        ++ (if forallb continues (seq s len) && (0 <? len) then [EvSleep 1] else [])).
Proof.
  revert s gists tr. induction len as [|len IH]; intros s gists tr.
  - cbn. rewrite app_nil_r. reflexivity.
  - cbn [seq fetch_pages].
    unfold mbind at 1. unfold io_bind at 1. unfold requests_get at 1.
    unfold mbind at 1. unfold io_bind at 1. unfold raise_for_status, lift.
    assert (Hpg : page_gists s
                  = if (400 <=? status_code (api_get s)) && (status_code (api_get s) <? 600)
                    then Raise HTTPError else create_gists (json (api_get s)))
      by reflexivity.
    destruct ((400 <=? status_code (api_get s)) && (status_code (api_get s) <? 600)).
    + assert (Hc : continues s = false) by (unfold continues; rewrite Hpg; reflexivity).
      rewrite (requested_cons_stop _ _ Hc). cbn. rewrite Hpg, Hc. reflexivity.
    + unfold mbind at 1. unfold io_bind at 1.
      destruct (create_gists (json (api_get s))) as [gs|e] eqn:Hcg.
      * destruct (length gs <? 30) eqn:Hlt.
        -- assert (Hc : continues s = false).
           { unfold continues. rewrite Hpg. apply Nat.ltb_lt in Hlt.
             apply Nat.leb_gt. exact Hlt. }
           rewrite (requested_cons_stop _ _ Hc). cbn. rewrite Hpg, Hc.
           unfold gists_of. rewrite Hpg. rewrite app_nil_r. reflexivity.
        -- assert (Hc : continues s = true).
           { unfold continues. rewrite Hpg. apply Nat.ltb_ge in Hlt.
             apply Nat.leb_le. exact Hlt. }
           rewrite (requested_cons_continue _ _ Hc).
           unfold mbind, io_bind, sleep, emit. rewrite IH.
           cbn [forallb]. rewrite Hc. cbn [andb].
           destruct len as [|len'].
           ++ cbn. rewrite Hpg. unfold gists_of. rewrite Hpg.
              rewrite !app_nil_r. rewrite <- app_assoc. reflexivity.
           ++ destruct (requested_cons_pos (S s) (seq (S (S s)) len')) as [k Hk].
              change (S s :: seq (S (S s)) len') with (seq (S s) (S len')) in Hk.
              rewrite Hk. change (0 <? S (S len')) with (0 <? S len').
              cbn [seq flat_map paced_from].
              assert (Hgs : gists_of s = gs) by (unfold gists_of; rewrite Hpg; reflexivity).
              rewrite Hgs, last_cons_cons. f_equal.
              ** destruct (last (S s :: seq (S (S s)) k)) as [page|] eqn:Hlast.
                 --- destruct (page_gists page); [|reflexivity].
                     rewrite <- !app_assoc. reflexivity.
                 --- apply last_None in Hlast. discriminate.
              ** rewrite <- !app_assoc. reflexivity.
      * assert (Hc : continues s = false) by (unfold continues; rewrite Hpg; reflexivity).
        rewrite (requested_cons_stop _ _ Hc). cbn. rewrite Hpg, Hc. reflexivity.
Qed.

Lemma requested_seq_spec (s len : nat) :
  requested (seq s len) ≤ len
  ∧ (0 < len → 0 < requested (seq s len))
  ∧ (∀ page, s ≤ page → S page < s + requested (seq s len) → continues page = true)
  ∧ (requested (seq s len) < len → continues (s + requested (seq s len) - 1) = false).
Proof.
  unfold requested.
  destruct (list_find _ (seq s len)) as [[i page]|] eqn:Hfind.
  - apply list_find_Some in Hfind as (Hi & Hstop & Hbefore).
    apply lookup_seq in Hi as [-> Hi].
    repeat split; try lia.
    + intros page Hs Hlt.
      destruct (continues page) eqn:Hc; [reflexivity|]. exfalso.
      apply (Hbefore (page - s) page); [|lia|exact Hc].
      apply lookup_seq. lia.
    + intros _. replace (s + S i - 1) with (s + i) by lia. exact Hstop.
  - apply list_find_None in Hfind. rewrite length_seq.
    repeat split; try lia.
    intros page Hs Hlt.
    destruct (continues page) eqn:Hc; [reflexivity|]. exfalso.
    rewrite Forall_forall in Hfind. apply (Hfind page); [|exact Hc].
    apply elem_of_seq. lia.
Qed.

Lemma forallb_continues_seq (s len : nat) :
  0 < len →
  forallb continues (seq s len) = continues (s + requested (seq s len) - 1).
Proof.
  intros Hlen.
  destruct (requested_seq_spec s len) as (Hle & Hpos & Hcont & Hstop).
  specialize (Hpos Hlen).
  destruct (forallb continues (seq s len)) eqn:Hall.
  - rewrite forallb_forall in Hall. symmetry. apply Hall.
    apply in_seq. lia.
  - destruct (continues (s + requested (seq s len) - 1)) eqn:Hc; [|reflexivity].
    exfalso. apply not_true_iff_false in Hall. apply Hall.
    apply forallb_forall. intros page Hin. apply in_seq in Hin.
    destruct (decide (requested (seq s len) < len)) as [Hlt|Hge].
    + specialize (Hstop Hlt). congruence.
    + destruct (decide (page = s + requested (seq s len) - 1)) as [->|Hne];
        [exact Hc | apply Hcont; lia].
Qed.

Lemma gets_of_paced_from (s n : nat) (tail : list event) :
  List.filter is_get tail = [] →
  List.filter is_get (paced_from s n ++ tail) = EvGet 100 <$> seq s n.
Proof.
  intros Htail. rewrite List.filter_app, Htail, app_nil_r.
  destruct n as [|n]; [reflexivity|]. cbn. f_equal.
  generalize (S s). induction n as [|n IH]; intros s'; [reflexivity|].
  cbn. f_equal. apply IH.
Qed.

(** C6. The fetch loop requests the pages 1, 2, ..., n with page size 100,
    where every page before the n-th yields 30 records or more, the n-th
    page is the first that does not (it has 29 or fewer, or it failed)
    unless n is the cap of 30, and n is never more than 30. The value is
    the records of these pages, in page order and in the order within each
    page, or the error of the last page. *)
Theorem cli_fetch_pages :
  ∃ n,
    n = pages_fetched
    ∧ 1 ≤ n ≤ 30
    ∧ (∀ page, 1 ≤ page < n → ∃ gists, page_gists page = Ok gists ∧ 30 ≤ length gists)
    ∧ (n < 30 → ∀ gists, page_gists n = Ok gists → length gists ≤ 29)
    ∧ List.filter is_get (snd (run cli_fetch)) = EvGet 100 <$> seq 1 n
    ∧ fst (run cli_fetch)
      = match page_gists n with
        | Ok _ => Ok (flat_map gists_of (seq 1 n))
        | Raise e => Raise e
        end.
Proof.
  exists pages_fetched. unfold pages_fetched, run, cli_fetch.
  rewrite fetch_pages_seq.
  destruct (requested_seq_spec 1 30) as (Hle & Hpos & Hcont & Hstop).
  specialize (Hpos ltac:(lia)).
  split; [reflexivity|]. split; [lia|]. split; [|split; [|split]].
  - intros page Hpage. specialize (Hcont page ltac:(lia) ltac:(lia)).
    unfold continues in Hcont. destruct (page_gists page) as [gists|e]; [|discriminate].
    exists gists. split; [reflexivity|]. apply Nat.leb_le. exact Hcont.
  - intros Hlt gists Hpg. specialize (Hstop Hlt).
    replace (1 + requested (seq 1 30) - 1) with (requested (seq 1 30)) in Hstop by lia.
    unfold continues in Hstop. rewrite Hpg in Hstop. apply Nat.leb_gt in Hstop. lia.
  - cbn [snd app]. apply gets_of_paced_from.
    destruct (forallb continues (seq 1 30) && (0 <? 30)); reflexivity.
  - cbn [fst].
    destruct (requested (seq 1 30)) as [|k] eqn:Hk; [lia|].
    replace (seq 1 (S k)) with (seq 1 k ++ [S k]) by (rewrite seq_S; reflexivity).
    rewrite last_snoc. reflexivity.
Qed.

(** C4, as the program has it. The trace of the fetch loop is the requests
    for the pages 1..n with exactly one wait of 1 between successive
    requests and no wait before the first; it ends with the last request
    when the last page has fewer than 30 records or failed. When the loop
    stops at the cap, the 30th page having 30 records or more, one more wait
    follows the last request. *)
Theorem cli_fetch_pacing :
  snd (run cli_fetch)
  = paced_requests pages_fetched
    ++ (if continues pages_fetched then [EvSleep 1] else [])
  ∧ 1 ≤ pages_fetched ≤ 30
  ∧ (continues pages_fetched = true ↔ pages_fetched = 30 ∧ continues 30 = true).
Proof.
  unfold pages_fetched, run, cli_fetch. rewrite fetch_pages_seq. cbn [snd app].
  destruct (requested_seq_spec 1 30) as (Hle & Hpos & Hcont & Hstop).
  specialize (Hpos ltac:(lia)).
  rewrite forallb_continues_seq by lia.
  replace (1 + requested (seq 1 30) - 1) with (requested (seq 1 30)) in * by lia.
  change (0 <? 30) with true. rewrite andb_true_r.
  split; [reflexivity|]. split; [lia|]. split.
  - intros Hc. destruct (decide (requested (seq 1 30) < 30)) as [Hlt|Hge].
    + specialize (Hstop Hlt). congruence.
    + assert (Heq : requested (seq 1 30) = 30) by lia. rewrite Heq in Hc. auto.
  - intros [Heq Hc]. rewrite Heq. exact Hc.
Qed.

(** ** The record normalizer *)

Lemma create_gists_loop_Forall2 (json : list value) (acc gists : list (Gist value)) :
  Forall2 (λ raw_gist gist, create_gist raw_gist = Ok gist) json gists →
  create_gists_loop json acc = Ok (acc ++ gists).
Proof.
  intros HF. revert acc. induction HF as [|raw_gist gist json gists Hg _ IH]; intros acc.
  - cbn. rewrite app_nil_r. reflexivity.
  - cbn. rewrite Hg. cbn. rewrite IH, <- app_assoc. reflexivity.
Qed.

(** The gist made from a well-formed raw entry. *)
Lemma create_gist_well_formed (raw_gist : value) :
  well_formed_raw raw_gist →
  ∃ label created_at dt,
    first_language raw_gist = Some label
    ∧ field_of raw_gist "created_at" = Some (VStr created_at)
    ∧ strptime created_at "%Y-%m-%dT%H:%M:%SZ" = Some dt
    ∧ create_gist raw_gist
      = Ok (mkGist (default VNone (field_of raw_gist "id"))
                   (if truthy (default VNone (field_of raw_gist "public"))
                    then "public" else "secret")
                   (match label with VNone => VStr "Unknown" | _ => label end)
                   (dt_date dt)).
Proof.
  intros (entries & name & file & files & label & created_at & dt
          & -> & Hfiles & Hlabel & Hcreated & Hdt).
  exists label, created_at, dt. unfold first_language, field_of, create_gist.
  cbn. rewrite Hfiles. cbn. rewrite String.eqb_refl. cbn. rewrite Hlabel. cbn.
  rewrite Hcreated. cbn. rewrite Hdt. cbn. auto.
Qed.

Lemma create_gists_well_formed (json : list value) :
  Forall well_formed_raw json →
  ∃ gists,
    create_gists json = Ok gists
    ∧ Forall2 (λ raw_gist gist, create_gist raw_gist = Ok gist) json gists.
Proof.
  intros Hwf.
  assert (HF : ∃ gists, Forall2 (λ raw_gist gist, create_gist raw_gist = Ok gist) json gists).
  { induction Hwf as [|raw_gist json Hraw _ (gists & IH)].
    - exists []. constructor.
    - destruct (create_gist_well_formed _ Hraw) as (? & ? & ? & _ & _ & _ & Hg).
      eexists (_ :: gists). constructor; [exact Hg | exact IH]. }
  destruct HF as (gists & HF). exists gists. split; [|exact HF].
  unfold create_gists. rewrite (create_gists_loop_Forall2 _ [] _ HF). reflexivity.
Qed.

(** The loop stops at the first entry that raises: the entries after it are
    not looked at. *)
Lemma create_gists_loop_stops (good rest : list value) (raw_gist : value)
    (acc : list (Gist value)) (e : exn) :
  Forall well_formed_raw good →
  create_gist raw_gist = Raise e →
  create_gists_loop (good ++ raw_gist :: rest) acc = Raise e.
Proof.
  intros Hgood He. revert acc.
  induction Hgood as [|earlier good Hearlier _ IH]; intros acc; cbn.
  - rewrite He. reflexivity.
  - destruct (create_gist_well_formed _ Hearlier) as (? & ? & ? & _ & _ & _ & ->).
    cbn. apply IH.
Qed.

(** C5, as the code has it. From raw entries whose first file carries a
    "language" entry and whose timestamp parses, [create_gists] makes one
    record per entry, in the same order. The language of a record is the
    label of the first file of its entry, or "Unknown" when that label is
    null; its visibility is "public" for the flag [True] and "secret" for
    [False]; its date is the date part of the parsed timestamp. An entry
    that has a first file but no "language" entry in it is not given
    "Unknown": it stops the function with [KeyError], and no record is
    returned, whatever follows it. *)
Theorem create_gists_normalizes (json : list value) :
  Forall well_formed_raw json →
  (∃ gists,
     create_gists json = Ok gists
     ∧ length gists = length json
     ∧ ∀ i raw_gist gist, json !! i = Some raw_gist → gists !! i = Some gist →
         (first_language raw_gist = Some VNone → language gist = VStr "Unknown")
         ∧ (∀ label, first_language raw_gist = Some label → label ≠ VNone →
              language gist = label)
         ∧ (field_of raw_gist "public" = Some (VBool true) → visibility gist = "public")
         ∧ (field_of raw_gist "public" = Some (VBool false) → visibility gist = "secret")
         ∧ (∃ created_at dt,
              field_of raw_gist "created_at" = Some (VStr created_at)
              ∧ strptime created_at "%Y-%m-%dT%H:%M:%SZ" = Some dt
              ∧ created_date gist = dt_date dt)
         ∧ id gist = default VNone (field_of raw_gist "id"))
  ∧ (∀ entries name file files rest,
       dict_lookup entries "files" = Some (VDict ((name, VDict file) :: files)) →
       dict_lookup file "language" = None →
       create_gists (json ++ VDict entries :: rest) = Raise KeyError).
Proof.
  intros Hwf. split.
  2: { intros entries name file files rest Hfiles Hlabel.
       apply create_gists_loop_stops; [exact Hwf|].
       unfold create_gist. cbn. rewrite Hfiles. cbn.
       rewrite String.eqb_refl. cbn. rewrite Hlabel. reflexivity. }
  destruct (create_gists_well_formed json Hwf) as (gists & Hrun & HF).
  exists gists. split; [exact Hrun|]. split; [symmetry; exact (Forall2_length _ _ _ HF)|].
  intros i raw_gist gist Hraw Hgist.
  assert (Hg : create_gist raw_gist = Ok gist).
  { eapply (Forall2_lookup_lr _ _ _ _ _ _ HF); eassumption. }
  assert (Hw : well_formed_raw raw_gist).
  { rewrite Forall_lookup in Hwf. exact (Hwf i raw_gist Hraw). }
  destruct (create_gist_well_formed _ Hw) as (label & created_at & dt & Hl & Hc & Hdt & Hmk).
  rewrite Hmk in Hg. injection Hg as <-. cbn.
  repeat split.
  - intros Hnone. rewrite Hl in Hnone. injection Hnone as ->. reflexivity.
  - intros label' Hl' Hne. rewrite Hl in Hl'. injection Hl' as <-.
    destruct label; congruence.
  - intros ->. reflexivity.
  - intros ->. reflexivity.
  - exists created_at, dt. auto.
Qed.

(** C10. The visibility of a record follows the truthiness of the "public"
    entry of its raw entry: "secret" when the entry is missing or holds a
    falsy value (null, 0, the empty string, ...), "public" when it holds a
    truthy value, boolean or not; a missing or odd flag raises nothing.
    Every entry has its record, at the same position: there are as many
    records as entries. *)
Theorem create_gists_visibility_truthiness (json : list value) :
  Forall well_formed_raw json →
  ∃ gists,
    create_gists json = Ok gists
    ∧ length gists = length json
    ∧ (∀ i raw_gist, json !! i = Some raw_gist →
        ∃ gist,
          gists !! i = Some gist
          ∧ (field_of raw_gist "public" = None → visibility gist = "secret")
          ∧ (∀ v, field_of raw_gist "public" = Some v → truthy v = false →
               visibility gist = "secret")
          ∧ (∀ v, field_of raw_gist "public" = Some v → truthy v = true →
               visibility gist = "public"))
    ∧ truthy VNone = false ∧ truthy (VInt 0) = false ∧ truthy (VStr "") = false
    ∧ truthy (VBool false) = false ∧ truthy (VInt 1) = true ∧ truthy (VStr "no") = true.
Proof.
  intros Hwf. destruct (create_gists_well_formed json Hwf) as (gists & Hrun & HF).
  exists gists. split; [exact Hrun|].
  split; [symmetry; exact (Forall2_length _ _ _ HF)|]. split; [|repeat split].
  intros i raw_gist Hraw.
  destruct (Forall2_lookup_l _ _ _ _ _ HF Hraw) as (gist & Hgist & Hg).
  exists gist. split; [exact Hgist|].
  assert (Hw : well_formed_raw raw_gist).
  { rewrite Forall_lookup in Hwf. exact (Hwf i raw_gist Hraw). }
  destruct (create_gist_well_formed _ Hw) as (label & created_at & dt & _ & _ & _ & Hmk).
  rewrite Hmk in Hg. injection Hg as <-. cbn.
  repeat split.
  - intros ->. reflexivity.
  - intros v -> Hv. cbn. rewrite Hv. reflexivity.
  - intros v -> Hv. cbn. rewrite Hv. reflexivity.
Qed.

(** ** The filter engine *)

Lemma match_gists_filter (index : nat) (arg : option argument) (keep : Gist Id → bool)
    (gists : list (Gist Id)) (matched_ids : list Id) :
  (∀ gist acc, gist ∈ gists →
     visit index arg gist acc = Ok (if keep gist then acc ++ [id gist] else acc)) →
  match_gists index arg gists matched_ids
  = Ok (matched_ids ++ (id <$> filter (λ gist, keep gist) gists)).
Proof.
  revert matched_ids. induction gists as [|gist rest IH]; intros matched_ids Hvisit.
  - cbn. rewrite app_nil_r. reflexivity.
  - cbn [match_gists]. rewrite Hvisit by left. cbn [mbind result_bind].
    rewrite IH by (intros g acc Hg; apply Hvisit; right; exact Hg).
    rewrite filter_cons. destruct (keep gist) eqn:Hk.
    + rewrite decide_True by exact I.
      rewrite fmap_cons, <- app_assoc. reflexivity.
    + rewrite decide_False by (intros []). reflexivity.
Qed.

Lemma visit_visibility (vis : option string) (gist : Gist Id) (acc : list Id) :
  visit 0 (ArgStr <$> vis) gist acc
  = Ok (if visibility_ok vis gist then acc ++ [id gist] else acc).
Proof. destruct vis as [v|]; reflexivity. Qed.

Lemma visit_languages (languages : option (list string)) (gist : Gist Id) (acc : list Id) :
  visit 1 ((λ l, ArgList (IStr <$> l)) <$> languages) gist acc
  = Ok (if language_ok languages gist then acc ++ [id gist] else acc).
Proof. destruct languages as [l|]; reflexivity. Qed.

Lemma visit_date_range (date_range : option (list date)) (gist : Gist Id) (acc : list Id) :
  date_range ≠ Some [] →
  visit 2 ((λ l, ArgList (IDate <$> l)) <$> date_range) gist acc
  = Ok (if date_ok date_range gist then acc ++ [id gist] else acc).
Proof.
  intros Hne. destruct date_range as [[|d1 [|d2 rest]]|]; try congruence; try reflexivity.
  cbn. destruct (date_leb d1 (created_date gist)); reflexivity.
Qed.

(** The order on dates is reflexive and transitive, and two dates are
    always comparable. *)
Lemma date_leb_iff (d1 d2 : date) :
  date_leb d1 d2 = true
  ↔ year d1 < year d2
    ∨ (year d1 = year d2
       ∧ (month d1 < month d2 ∨ (month d1 = month d2 ∧ day d1 ≤ day d2))).
Proof.
  unfold date_leb.
  destruct (year d1 =? year d2) eqn:Hy; [apply Nat.eqb_eq in Hy | apply Nat.eqb_neq in Hy].
  - destruct (month d1 =? month d2) eqn:Hm;
      [apply Nat.eqb_eq in Hm | apply Nat.eqb_neq in Hm].
    + rewrite Nat.leb_le. lia.
    + rewrite Nat.ltb_lt. lia.
  - rewrite Nat.ltb_lt. lia.
Qed.

Lemma date_leb_refl (d : date) : date_leb d d = true.
Proof. apply date_leb_iff. lia. Qed.

Lemma date_leb_trans (d1 d2 d3 : date) :
  date_leb d1 d2 = true → date_leb d2 d3 = true → date_leb d1 d3 = true.
Proof. rewrite !date_leb_iff. lia. Qed.

Lemma elem_of_matches (keep : Gist Id → bool) (gists : list (Gist Id)) (x : Id) :
  x ∈ id <$> filter (λ gist, keep gist) gists
  ↔ ∃ gist, gist ∈ gists ∧ id gist = x ∧ keep gist = true.
Proof.
  rewrite list_elem_of_fmap. split.
  - intros (gist & -> & Hin). apply list_elem_of_filter in Hin as [Hk Hin].
    exists gist. repeat split; [exact Hin|]. apply Is_true_true. exact Hk.
  - intros (gist & Hin & <- & Hk). exists gist. split; [reflexivity|].
    apply list_elem_of_filter. split; [|exact Hin]. apply Is_true_true. exact Hk.
Qed.

(** The value of [filter_gists] on the three dimensions of the criteria. *)
Lemma filter_gists_typed (vis : option string) (languages : option (list string))
    (date_range : option (list date)) (gists : list (Gist Id)) :
  date_range ≠ Some [] →
  ∃ ids,
    filter_gists (relevant_args_of vis languages date_range) gists = Ok ids
    ∧ NoDup ids
    ∧ ∀ x, x ∈ ids ↔
        (∃ gist, gist ∈ gists ∧ id gist = x ∧ visibility_ok vis gist = true)
        ∧ (∃ gist, gist ∈ gists ∧ id gist = x ∧ language_ok languages gist = true)
        ∧ (∃ gist, gist ∈ gists ∧ id gist = x ∧ date_ok date_range gist = true).
Proof.
  forget_unused.
  intros Hne. unfold filter_gists, relevant_args_of. cbn [filter_loop].
  rewrite (match_gists_filter 0 _ (visibility_ok vis))
    by (intros; apply visit_visibility).
  cbn [mbind result_bind].
  rewrite (match_gists_filter 1 _ (language_ok languages))
    by (intros; apply visit_languages).
  cbn [mbind result_bind].
  rewrite (match_gists_filter 2 _ (date_ok date_range))
    by (intros; apply visit_date_range; exact Hne).
  cbn [mbind result_bind app intersection foldl].
  eexists. split; [reflexivity|]. split; [apply NoDup_elements|].
  intros x. rewrite elem_of_elements, !elem_of_intersection, !elem_of_list_to_set.
  rewrite !elem_of_matches. tauto.
Qed.

Lemma visibility_ok_iff (vis : option string) (gist : Gist Id) :
  visibility_ok vis gist = true ↔ ∀ v, vis = Some v → visibility gist = v.
Proof.
  destruct vis as [v|]; cbn.
  - rewrite String.eqb_eq. split; [intros <- v' [= <-]; reflexivity | intros Hv; symmetry; auto].
  - split; [intros _ v; discriminate | reflexivity].
Qed.

Lemma language_ok_iff (languages : option (list string)) (gist : Gist Id) :
  language_ok languages gist = true
  ↔ ∀ l, languages = Some l → ∃ s, language gist = VStr s ∧ s ∈ l.
Proof.
  destruct languages as [l|]; cbn.
  - rewrite existsb_exists. split.
    + intros (it & Hin & Hit) l' [= <-].
      apply list_elem_of_In, list_elem_of_fmap in Hin as (s & -> & Hs).
      destruct (language gist) as [| | | |s'| |]; try discriminate.
      apply String.eqb_eq in Hit as ->. eauto.
    + intros Hl. destruct (Hl l eq_refl) as (s & Hs & Hin). exists (IStr s). split.
      * apply list_elem_of_In, list_elem_of_fmap. eauto.
      * rewrite Hs. apply String.eqb_refl.
  - split; [intros _ l; discriminate | reflexivity].
Qed.

Lemma date_ok_iff (date_range : option (list date)) (gist : Gist Id) :
  date_ok date_range gist = true
  ↔ ∀ r, date_range = Some r → in_date_range r (created_date gist).
Proof.
  destruct date_range as [[|d1 [|d2 rest]]|]; cbn.
  - split; [discriminate | intros Hr; destruct (Hr [] eq_refl)].
  - rewrite bool_decide_eq_true.
    split; [intros -> r [= <-]; reflexivity | intros Hr; exact (Hr _ eq_refl)].
  - rewrite andb_true_iff.
    split; [intros Hd r [= <-]; exact Hd | intros Hr; exact (Hr _ eq_refl)].
  - split; [intros _ r; discriminate | reflexivity].
Qed.

Lemma satisfies_iff (vis : option string) (languages : option (list string))
    (date_range : option (list date)) (gist : Gist Id) :
  satisfies vis languages date_range gist
  ↔ visibility_ok vis gist = true ∧ language_ok languages gist = true
    ∧ date_ok date_range gist = true.
Proof.
  unfold satisfies. rewrite visibility_ok_iff, language_ok_iff, date_ok_iff. reflexivity.
Qed.

(** C1. For records with pairwise distinct identifiers, the identifier of a
    record is in the result of [filter_gists] exactly when the record
    satisfies every dimension of the criteria that is present: an absent
    dimension holds of every record, the visibility must equal the given
    one, the language must be in the given list. The result holds
    identifiers of the given records only, each once, and with no
    dimension present it holds all of them. *)
Theorem filter_gists_spec (vis : option string) (languages : option (list string))
    (date_range : option (list date)) (gists : list (Gist Id)) :
  NoDup (id <$> gists) → date_range ≠ Some [] →
  ∃ ids,
    filter_gists (relevant_args_of vis languages date_range) gists = Ok ids
    ∧ NoDup ids
    ∧ (∀ gist, gist ∈ gists → (id gist ∈ ids ↔ satisfies vis languages date_range gist))
    ∧ (∀ x, x ∈ ids → x ∈ id <$> gists)
    ∧ (vis = None → languages = None → date_range = None →
       ∀ x, x ∈ ids ↔ x ∈ id <$> gists).
Proof.
  intros Hnodup Hne.
  destruct (filter_gists_typed vis languages date_range gists Hne) as (ids & Hrun & Hnd & Hin).
  exists ids. split; [exact Hrun|]. split; [exact Hnd|].
  assert (Hinj : ∀ g1 g2, g1 ∈ gists → g2 ∈ gists → id g1 = id g2 → g1 = g2).
  { intros g1 g2 H1 H2 Heq.
    apply list_elem_of_lookup in H1 as [i1 H1]. apply list_elem_of_lookup in H2 as [i2 H2].
    assert (i1 = i2).
    { eapply NoDup_lookup; [exact Hnodup| |]; rewrite list_lookup_fmap.
      - rewrite H1. reflexivity.
      - rewrite H2, Heq. reflexivity. }
    subst i2. congruence. }
  split; [|split].
  - intros gist Hgist. rewrite Hin, satisfies_iff. split.
    + intros ((g0 & H0 & E0 & K0) & (g1 & H1 & E1 & K1) & (g2 & H2 & E2 & K2)).
      rewrite (Hinj g0 gist H0 Hgist E0) in K0.
      rewrite (Hinj g1 gist H1 Hgist E1) in K1.
      rewrite (Hinj g2 gist H2 Hgist E2) in K2. auto.
    + intros (K0 & K1 & K2). repeat split; exists gist; auto.
  - intros x Hx. apply Hin in Hx as ((g0 & H0 & <- & _) & _).
    apply list_elem_of_fmap_2. exact H0.
  - intros -> -> -> x. rewrite Hin, list_elem_of_fmap. cbn. split.
    + intros ((g0 & H0 & <- & _) & _). eauto.
    + intros (g0 & -> & H0). repeat split; exists g0; auto.
Qed.

(** C7. In the date dimension, with one date the identifier of a record is
    kept exactly when the record was created on that date; with two dates
    exactly when its date lies between the first and the second, ends
    included, so a record dated on either end of an ascending pair is kept.
    The pair is used as given: with a descending pair nothing is kept. *)
Theorem date_range_matching (gists : list (Gist Id)) (d d1 d2 : date) :
  (∀ gist acc,
     visit 2 (Some (ArgList [IDate d])) gist acc
     = Ok (if bool_decide (created_date gist = d) then acc ++ [id gist] else acc))
  ∧ (∀ gist acc,
       visit 2 (Some (ArgList [IDate d1; IDate d2])) gist acc
       = Ok (if date_leb d1 (created_date gist) && date_leb (created_date gist) d2
             then acc ++ [id gist] else acc))
  ∧ (∃ ids,
       filter_gists (relevant_args_of None None (Some [d])) gists = Ok ids
       ∧ ∀ x, x ∈ ids ↔ ∃ gist, gist ∈ gists ∧ id gist = x ∧ created_date gist = d)
  ∧ (∃ ids,
       filter_gists (relevant_args_of None None (Some [d1; d2])) gists = Ok ids
       ∧ (∀ x, x ∈ ids ↔
            ∃ gist, gist ∈ gists ∧ id gist = x
                    ∧ date_leb d1 (created_date gist) = true
                    ∧ date_leb (created_date gist) d2 = true)
       ∧ (date_leb d1 d2 = true →
          ∀ gist, gist ∈ gists → created_date gist = d1 ∨ created_date gist = d2 →
                  id gist ∈ ids)
       ∧ (date_leb d1 d2 = false → ids = [])).
Proof.
  split; [|split; [|split]].
  - intros gist acc. exact (visit_date_range (Some [d]) gist acc ltac:(discriminate)).
  - intros gist acc. exact (visit_date_range (Some [d1; d2]) gist acc ltac:(discriminate)).
  - destruct (filter_gists_typed None None (Some [d]) gists ltac:(discriminate))
      as (ids & Hrun & _ & Hin).
    exists ids. split; [exact Hrun|]. intros x. rewrite Hin. cbn. split.
    + intros (_ & _ & (gist & Hg & Hx & Hd)). apply bool_decide_eq_true in Hd. eauto.
    + intros (gist & Hg & Hx & Hd).
      repeat split; exists gist; repeat split; auto. apply bool_decide_eq_true. exact Hd.
  - destruct (filter_gists_typed None None (Some [d1; d2]) gists ltac:(discriminate))
      as (ids & Hrun & _ & Hin).
    exists ids. split; [exact Hrun|].
    assert (Hin' : ∀ x, x ∈ ids ↔
              ∃ gist, gist ∈ gists ∧ id gist = x
                      ∧ date_leb d1 (created_date gist) = true
                      ∧ date_leb (created_date gist) d2 = true).
    { intros x. rewrite Hin. cbn. split.
      - intros (_ & _ & (gist & Hg & Hx & Hd)). apply andb_true_iff in Hd. eauto.
      - intros (gist & Hg & Hx & Hd).
        repeat split; exists gist; repeat split; auto. apply andb_true_iff. exact Hd. }
    split; [exact Hin'|]. split.
    + intros Hasc gist Hg Hd. apply Hin'. exists gist. repeat split; [exact Hg| |].
      * destruct Hd as [-> | ->]; [apply date_leb_refl | exact Hasc].
      * destruct Hd as [-> | ->]; [exact Hasc | apply date_leb_refl].
    + intros Hdesc. destruct ids as [|x ids]; [reflexivity|]. exfalso.
      destruct (proj1 (Hin' x) ltac:(left)) as (gist & _ & _ & Hlo & Hhi).
      rewrite (date_leb_trans _ _ _ Hlo Hhi) in Hdesc. discriminate.
Qed.

(** ** The date-range parser *)

Lemma parse_dates_ok (date_arguments : list string) (acc dates : list date) :
  Forall2 (λ argument d, ∃ dt, strptime argument "%Y-%m-%d" = Some dt ∧ dt_date dt = d)
          date_arguments dates →
  parse_dates date_arguments acc = Ok (acc ++ dates).
Proof.
  intros HF. revert acc.
  induction HF as [|argument d rest dates (dt & Hdt & <-) _ IH]; intros acc.
  - cbn. rewrite app_nil_r. reflexivity.
  - cbn. rewrite Hdt, IH, <- app_assoc. reflexivity.
Qed.

(** Exactly three strings are refused. *)
Lemma parse_date_arguments_three (date_arguments : list string) :
  length date_arguments = 3 → parse_date_arguments date_arguments = Raise TypeError.
Proof. intros Hlen. unfold parse_date_arguments. rewrite Hlen. reflexivity. Qed.

(** Any other number of strings that parse gives their dates, in order. *)
Lemma parse_date_arguments_ok (date_arguments : list string) (dates : list date) :
  length date_arguments ≠ 3 →
  Forall2 (λ argument d, ∃ dt, strptime argument "%Y-%m-%d" = Some dt ∧ dt_date dt = d)
          date_arguments dates →
  parse_date_arguments date_arguments = Ok dates.
Proof.
  intros Hlen HF. unfold parse_date_arguments.
  destruct (length date_arguments =? 3) eqn:Hl; [apply Nat.eqb_eq in Hl; contradiction|].
  exact (parse_dates_ok _ [] _ HF).
Qed.


(** ** More on the date-range parser *)

Lemma parse_dates_mapM (date_arguments : list string) (acc : list date) :
  parse_dates date_arguments acc
  = match mapM (λ argument, dt_date <$> strptime argument "%Y-%m-%d") date_arguments with
    | Some dates => Ok (acc ++ dates)
    | None => Raise ValueError
    end.
Proof.
  revert acc. induction date_arguments as [|argument rest IH]; intros acc.
  - cbn. rewrite app_nil_r. reflexivity.
  - cbn. destruct (strptime argument "%Y-%m-%d") as [dt|]; cbn; [|reflexivity].
    rewrite IH. destruct (mapM _ rest) as [dates|]; cbn; [|reflexivity].
    rewrite <- app_assoc. reflexivity.
Qed.

(** X1. [parse_date_arguments] looks at the number of strings before it
    parses any of them: exactly three strings give [TypeError] even when
    they are malformed; any other number of strings gives [ValueError] as
    soon as one of them does not parse, and otherwise the dates of the
    strings, one per string and in the same order (none for no string). *)
Theorem parse_date_arguments_outcomes (date_arguments : list string) :
  parse_date_arguments date_arguments
  = (if bool_decide (length date_arguments = 3) then Raise TypeError
     else match mapM (λ argument, dt_date <$> strptime argument "%Y-%m-%d") date_arguments with
          | Some dates => Ok dates
          | None => Raise ValueError
          end)
  ∧ (∀ dates, parse_date_arguments date_arguments = Ok dates →
       length dates = length date_arguments
       ∧ ∀ i argument, date_arguments !! i = Some argument →
           ∃ dt, strptime argument "%Y-%m-%d" = Some dt ∧ dates !! i = Some (dt_date dt)).
Proof.
  assert (Heq : parse_date_arguments date_arguments
    = (if bool_decide (length date_arguments = 3) then Raise TypeError
       else match mapM (λ argument, dt_date <$> strptime argument "%Y-%m-%d") date_arguments with
            | Some dates => Ok dates
            | None => Raise ValueError
            end)).
  { unfold parse_date_arguments. destruct (length date_arguments =? 3) eqn:Hlen.
    - apply Nat.eqb_eq in Hlen. rewrite bool_decide_eq_true_2 by exact Hlen. reflexivity.
    - apply Nat.eqb_neq in Hlen. rewrite bool_decide_eq_false_2 by exact Hlen.
      apply parse_dates_mapM. }
  split; [exact Heq|]. intros dates Hok. rewrite Heq in Hok.
  destruct (bool_decide (length date_arguments = 3)); [discriminate|].
  destruct (mapM _ date_arguments) as [dates'|] eqn:Hm; [|discriminate].
  injection Hok as ->. apply mapM_Some in Hm.
  split; [symmetry; exact (Forall2_length _ _ _ Hm)|].
  intros i argument Harg.
  destruct (Forall2_lookup_l _ _ _ _ _ Hm Harg) as (d & Hd & Hparse).
  destruct (strptime argument "%Y-%m-%d") as [dt|]; [|discriminate].
  cbn in Hparse. injection Hparse as <-. eauto.
Qed.

(** ** More on the record normalizer *)

Lemma create_gists_loop_Ok (json : list value) (acc gists : list (Gist value)) :
  create_gists_loop json acc = Ok gists
  ↔ ∃ new, gists = acc ++ new
           ∧ Forall2 (λ raw_gist gist, create_gist raw_gist = Ok gist) json new.
Proof.
  revert acc. induction json as [|raw_gist rest IH]; intros acc; cbn.
  - split.
    + intros [= <-]. exists []. rewrite app_nil_r. split; [reflexivity | constructor].
    + intros (new & -> & HF). inversion HF. rewrite app_nil_r. reflexivity.
  - destruct (create_gist raw_gist) as [gist|e] eqn:Hg; cbn.
    + rewrite IH. split.
      * intros (new & -> & HF). exists (gist :: new).
        rewrite <- app_assoc. split; [reflexivity | constructor; assumption].
      * intros (new & -> & HF). inversion HF as [|? g ? new' Hg' HF']; subst.
        rewrite Hg in Hg'. injection Hg' as <-.
        exists new'. rewrite <- app_assoc. split; [reflexivity | exact HF'].
    + split; [discriminate|]. intros (new & _ & HF).
      inversion HF as [|? g ? new' Hg' HF']; subst. congruence.
Qed.

Lemma create_gists_loop_Raise (json : list value) (acc : list (Gist value)) (e : exn) :
  create_gists_loop json acc = Raise e
  ↔ ∃ i raw_gist,
      json !! i = Some raw_gist ∧ create_gist raw_gist = Raise e
      ∧ ∀ j earlier, j < i → json !! j = Some earlier → ∃ gist, create_gist earlier = Ok gist.
Proof.
  revert acc. induction json as [|raw_gist rest IH]; intros acc; cbn.
  - split; [discriminate|]. intros (i & r & Hi & _). discriminate.
  - destruct (create_gist raw_gist) as [gist|e'] eqn:Hg; cbn.
    + rewrite IH. split.
      * intros (i & r & Hi & He & Hbefore). exists (S i), r.
        split; [exact Hi|]. split; [exact He|].
        intros [|j] earlier Hj Hearlier.
        -- injection Hearlier as <-. eauto.
        -- apply (Hbefore j); [lia | exact Hearlier].
      * intros ([|i] & r & Hi & He & Hbefore).
        -- injection Hi as <-. congruence.
        -- exists i, r. split; [exact Hi|]. split; [exact He|].
           intros j earlier Hj Hearlier. apply (Hbefore (S j)); [lia | exact Hearlier].
    + split.
      * intros [= <-]. exists 0, raw_gist. split; [reflexivity|]. split; [exact Hg|].
        intros j earlier Hj. lia.
      * intros ([|i] & r & Hi & He & Hbefore).
        -- injection Hi as <-. congruence.
        -- destruct (Hbefore 0 raw_gist ltac:(lia) eq_refl) as [gist Hgist]. congruence.
Qed.

(** X2. [create_gists] is all or nothing. It returns records exactly when
    every entry gives one, and then the records are those of the entries,
    in order; it raises an exception exactly when some entry does, and the
    exception is that of the first such entry: no record of the entries
    before it is kept. *)
Theorem create_gists_first_error (json : list value) :
  (∀ gists,
     create_gists json = Ok gists
     ↔ Forall2 (λ raw_gist gist, create_gist raw_gist = Ok gist) json gists)
  ∧ (∀ e,
       create_gists json = Raise e
       ↔ ∃ i raw_gist,
           json !! i = Some raw_gist ∧ create_gist raw_gist = Raise e
           ∧ ∀ j earlier, j < i → json !! j = Some earlier →
               ∃ gist, create_gist earlier = Ok gist).
Proof.
  split.
  - intros gists. unfold create_gists. rewrite create_gists_loop_Ok. split.
    + intros (new & -> & HF). exact HF.
    + intros HF. exists gists. split; [reflexivity | exact HF].
  - intros e. apply create_gists_loop_Raise.
Qed.


(** What a record made by the loop body looks like. *)
Lemma create_gist_Ok_inv (raw_gist : value) (gist : Gist value) :
  create_gist raw_gist = Ok gist →
  ∃ entries flag label dt,
    raw_gist = VDict entries
    ∧ gist = mkGist (default VNone (dict_lookup entries "id"))
                    (if truthy flag then "public" else "secret")
                    (match label with VNone => VStr "Unknown" | _ => label end)
                    (dt_date dt).
Proof.
  unfold create_gist. intros Hg.
  destruct (subscript raw_gist (VStr "files")) as [files|] eqn:Hfiles; [|discriminate].
  cbn in Hg. destruct (next_iter files) as [first|]; [|discriminate].
  cbn in Hg. destruct (subscript files first) as [file|]; [|discriminate].
  cbn in Hg. destruct (subscript file (VStr "language")) as [label|]; [|discriminate].
  cbn in Hg. destruct raw_gist as [| | | | | |entries]; try discriminate.
  cbn in Hg. destruct (dict_lookup entries "created_at") as [created_at|]; [|discriminate].
  cbn in Hg. destruct created_at as [| | | |s| |]; try discriminate.
  destruct (strptime s "%Y-%m-%dT%H:%M:%SZ") as [dt|]; [|discriminate].
  cbn in Hg. injection Hg as <-.
  exists entries, (default VNone (dict_lookup entries "public")), label, dt.
  split; reflexivity.
Qed.

(** X3. Whenever [create_gists] returns, it returns as many records as
    there are entries, every record is "public" or "secret", and no record
    has [None] as its language. *)
Theorem create_gists_invariant (json : list value) (gists : list (Gist value)) :
  create_gists json = Ok gists →
  length gists = length json
  ∧ Forall (λ gist, (visibility gist = "public" ∨ visibility gist = "secret")
                    ∧ language gist ≠ VNone) gists.
Proof.
  unfold create_gists. rewrite create_gists_loop_Ok. intros (new & -> & HF). cbn.
  split; [symmetry; exact (Forall2_length _ _ _ HF)|].
  induction HF as [|raw_gist gist json new Hg _ IH]; constructor; [|exact IH].
  apply create_gist_Ok_inv in Hg as (entries & flag & label & dt & _ & ->). cbn. split.
  - destruct (truthy flag); auto.
  - destruct label; discriminate.
Qed.

(** X4. After entries that normalize, an entry stops [create_gists] with
    [KeyError] when it has no "files", no "language" in its first file or
    no "created_at"; with [StopIteration] when its mapping of files is
    empty; with [TypeError] when its timestamp is not a string; and with
    [ValueError] when the timestamp does not parse. The entries after it
    play no part. *)
Theorem create_gists_malformed_entry (good rest : list value)
    (entries : list (string * value)) :
  Forall well_formed_raw good →
  (dict_lookup entries "files" = None →
     create_gists (good ++ VDict entries :: rest) = Raise KeyError)
  ∧ (dict_lookup entries "files" = Some (VDict []) →
       create_gists (good ++ VDict entries :: rest) = Raise StopIteration)
  ∧ (∀ name file files,
       dict_lookup entries "files" = Some (VDict ((name, VDict file) :: files)) →
       (dict_lookup file "language" = None →
          create_gists (good ++ VDict entries :: rest) = Raise KeyError)
       ∧ (is_Some (dict_lookup file "language") →
          (dict_lookup entries "created_at" = None →
             create_gists (good ++ VDict entries :: rest) = Raise KeyError)
          ∧ (∀ created_at, dict_lookup entries "created_at" = Some created_at →
               (∀ s, created_at ≠ VStr s) →
               create_gists (good ++ VDict entries :: rest) = Raise TypeError)
          ∧ (∀ s, dict_lookup entries "created_at" = Some (VStr s) →
               strptime s "%Y-%m-%dT%H:%M:%SZ" = None →
               create_gists (good ++ VDict entries :: rest) = Raise ValueError))).
Proof.
  intros Hgood.
  assert (Hstop : ∀ e, create_gist (VDict entries) = Raise e →
                       create_gists (good ++ VDict entries :: rest) = Raise e).
  { intros e He. apply create_gists_loop_Raise. exists (length good), (VDict entries).
    split; [apply list_lookup_middle; reflexivity|]. split; [exact He|].
    intros j earlier Hj Hearlier. rewrite lookup_app_l in Hearlier by exact Hj.
    rewrite Forall_lookup in Hgood.
    destruct (create_gist_well_formed _ (Hgood j earlier Hearlier))
      as (? & ? & ? & _ & _ & _ & Hmk).
    eauto. }
  split; [|split].
  - intros Hfiles. apply Hstop. unfold create_gist. cbn. rewrite Hfiles. reflexivity.
  - intros Hfiles. apply Hstop. unfold create_gist. cbn. rewrite Hfiles. reflexivity.
  - intros name file files Hfiles. split.
    + intros Hlabel. apply Hstop. unfold create_gist. cbn. rewrite Hfiles. cbn.
      rewrite String.eqb_refl. cbn. rewrite Hlabel. reflexivity.
    + intros [label Hlabel].
      split; [|split].
      * intros Hcreated. apply Hstop. unfold create_gist. cbn. rewrite Hfiles. cbn.
        rewrite String.eqb_refl. cbn. rewrite Hlabel. cbn. rewrite Hcreated. reflexivity.
      * intros created_at Hcreated Hnot. apply Hstop. unfold create_gist. cbn.
        rewrite Hfiles. cbn. rewrite String.eqb_refl. cbn. rewrite Hlabel. cbn.
        rewrite Hcreated. cbn. destruct created_at; try reflexivity.
        exfalso. eapply Hnot. reflexivity.
      * intros s Hcreated Hparse. apply Hstop. unfold create_gist. cbn.
        rewrite Hfiles. cbn. rewrite String.eqb_refl. cbn. rewrite Hlabel. cbn.
        rewrite Hcreated. cbn. rewrite Hparse. reflexivity.
Qed.


(** ** More on the filter engine *)

(** The value of [filter_gists] on the three dimensions, as a set. *)
Lemma filter_gists_typed_set (vis : option string) (languages : option (list string))
    (date_range : option (list date)) (gists : list (Gist Id)) :
  date_range ≠ Some [] →
  filter_gists (relevant_args_of vis languages date_range) gists
  = Ok (elements
          ((list_to_set (id <$> filter (λ gist, visibility_ok vis gist) gists)
            ∩ list_to_set (id <$> filter (λ gist, language_ok languages gist) gists))
           ∩ list_to_set (id <$> filter (λ gist, date_ok date_range gist) gists) : gset Id)).
Proof.
  intros Hne. unfold filter_gists, relevant_args_of. cbn [filter_loop].
  rewrite (match_gists_filter 0 _ (visibility_ok vis))
    by (intros; apply visit_visibility).
  cbn [mbind result_bind].
  rewrite (match_gists_filter 1 _ (language_ok languages))
    by (intros; apply visit_languages).
  cbn [mbind result_bind].
  rewrite (match_gists_filter 2 _ (date_ok date_range))
    by (intros; apply visit_date_range; exact Hne).
  reflexivity.
Qed.

(** X5. Without the assumption that identifiers are distinct: an
    identifier is in the result of [filter_gists] exactly when, for each
    dimension of the criteria, some record carrying it satisfies that
    dimension; the records may differ from one dimension to the other. The
    result never holds an identifier twice. *)
Theorem filter_gists_shared_ids (vis : option string) (languages : option (list string))
    (date_range : option (list date)) (gists : list (Gist Id)) :
  date_range ≠ Some [] →
  ∃ ids,
    filter_gists (relevant_args_of vis languages date_range) gists = Ok ids
    ∧ NoDup ids
    ∧ ∀ x, x ∈ ids ↔
        (∃ gist, gist ∈ gists ∧ id gist = x ∧ satisfies vis None None gist)
        ∧ (∃ gist, gist ∈ gists ∧ id gist = x ∧ satisfies None languages None gist)
        ∧ (∃ gist, gist ∈ gists ∧ id gist = x ∧ satisfies None None date_range gist).
Proof.
  forget_unused.
  intros Hne.
  destruct (filter_gists_typed vis languages date_range gists Hne) as (ids & Hrun & Hnd & Hin).
  exists ids. split; [exact Hrun|]. split; [exact Hnd|].
  intros x. rewrite Hin.
  assert (H0 : ∀ gist, visibility_ok vis gist = true ↔ satisfies vis None None gist).
  { intros gist. rewrite satisfies_iff. cbn. tauto. }
  assert (H1 : ∀ gist, language_ok languages gist = true ↔ satisfies None languages None gist).
  { intros gist. rewrite satisfies_iff. cbn. tauto. }
  assert (H2 : ∀ gist, date_ok date_range gist = true ↔ satisfies None None date_range gist).
  { intros gist. rewrite satisfies_iff. cbn. tauto. }
  split; intros ((g0 & I0 & E0 & K0) & (g1 & I1 & E1 & K1) & (g2 & I2 & E2 & K2));
    (split; [|split]);
    [exists g0 | exists g1 | exists g2 | exists g0 | exists g1 | exists g2];
    (split; [assumption|]); (split; [assumption|]);
    first [apply H0 | apply H1 | apply H2]; assumption.
Qed.

Lemma match_gists_nil (index : nat) (arg : option argument) (matched_ids : list Id) :
  match_gists index arg [] matched_ids = Ok matched_ids.
Proof. reflexivity. Qed.

Lemma filter_loop_no_gists (relevant_args : list (option argument)) (index : nat)
    (gist_ids : list (list Id)) :
  filter_loop index relevant_args [] gist_ids
  = Ok (gist_ids ++ replicate (length relevant_args) []).
Proof.
  revert index gist_ids. induction relevant_args as [|arg rest IH]; intros index gist_ids.
  - cbn. rewrite app_nil_r. reflexivity.
  - cbn. rewrite IH, <- app_assoc. reflexivity.
Qed.

Lemma intersection_of_empty (others : list (list Id)) :
  intersection [] others = ∅.
Proof.
  unfold intersection. rewrite list_to_set_nil.
  induction others as [|ids rest IH]; [reflexivity|].
  cbn. rewrite (left_absorb_L ∅ (∩)). exact IH.
Qed.

Lemma filter_gists_no_dates (vis : option string) (languages : option (list string))
    (gist : Gist Id) (gists : list (Gist Id)) :
  filter_gists (relevant_args_of vis languages (Some [])) (gist :: gists) = Raise IndexError.
Proof.
  unfold filter_gists, relevant_args_of. cbn [filter_loop].
  rewrite (match_gists_filter 0 _ (visibility_ok vis))
    by (intros; apply visit_visibility).
  cbn [mbind result_bind].
  rewrite (match_gists_filter 1 _ (language_ok languages))
    by (intros; apply visit_languages).
  reflexivity.
Qed.

(** X6. The corners of [filter_gists]: an empty list of arguments raises
    [IndexError]; with no record the result is empty, whatever the
    arguments are; and a date range that is present but holds no date
    raises [IndexError] as soon as there is a record. *)
Theorem filter_gists_corners (arg : option argument) (relevant_args : list (option argument))
    (vis : option string) (languages : option (list string))
    (gist : Gist Id) (gists : list (Gist Id)) :
  filter_gists [] gists = Raise IndexError
  ∧ filter_gists (arg :: relevant_args) [] = Ok []
  ∧ filter_gists (relevant_args_of vis languages (Some [])) (gist :: gists) = Raise IndexError.
Proof.
  split; [reflexivity|]. split.
  - unfold filter_gists. rewrite filter_loop_no_gists. cbn.
    rewrite intersection_of_empty. rewrite elements_empty. reflexivity.
  - apply filter_gists_no_dates.
Qed.

(** X7. Which identifiers [filter_gists] returns does not depend on the
    order in which the records are given. For two permutations of the same
    records, either both calls return, and the two results hold the same
    identifiers, the one being a rearrangement of the other (the order of a
    result is not compared), or both calls raise the same exception. *)
Theorem filter_gists_permutation (vis : option string) (languages : option (list string))
    (date_range : option (list date)) (gists gists' : list (Gist Id)) :
  gists ≡ₚ gists' →
  match filter_gists (relevant_args_of vis languages date_range) gists,
        filter_gists (relevant_args_of vis languages date_range) gists' with
  | Ok ids, Ok ids' => ids ≡ₚ ids'
  | Raise e, Raise e' => e = e'
  | _, _ => False
  end.
Proof.
  forget_unused.
  intros Hperm. destruct (decide (date_range = Some [])) as [->|Hne].
  - destruct gists as [|g rest].
    + apply Permutation_nil_l in Hperm as ->.
      destruct (filter_gists _ _); reflexivity.
    + destruct gists' as [|g' rest'].
      * apply Permutation_nil_r in Hperm. discriminate.
      * rewrite !filter_gists_no_dates. reflexivity.
  - rewrite !filter_gists_typed_set by exact Hne.
    apply elements_proper. intros x.
    rewrite !elem_of_intersection, !elem_of_list_to_set, !list_elem_of_fmap.
    setoid_rewrite list_elem_of_filter. setoid_rewrite Hperm. reflexivity.
Qed.

(** X8. Dropping a dimension of the criteria can only add identifiers:
    the result for criteria is included in the result for the criteria
    with some of the dimensions made absent. *)
Theorem filter_gists_weaken (vis vis' : option string) (languages languages' : option (list string))
    (date_range date_range' : option (list date)) (gists : list (Gist Id)) :
  date_range ≠ Some [] →
  (vis' = None ∨ vis' = vis) →
  (languages' = None ∨ languages' = languages) →
  (date_range' = None ∨ date_range' = date_range) →
  ∃ ids ids',
    filter_gists (relevant_args_of vis languages date_range) gists = Ok ids
    ∧ filter_gists (relevant_args_of vis' languages' date_range') gists = Ok ids'
    ∧ ids ⊆ ids'.
Proof.
  forget_unused.
  intros Hne Hv Hl Hd.
  assert (Hne' : date_range' ≠ Some []) by (destruct Hd as [-> | ->]; congruence).
  destruct (filter_gists_typed vis languages date_range gists Hne) as (ids & Hrun & _ & Hin).
  destruct (filter_gists_typed vis' languages' date_range' gists Hne')
    as (ids' & Hrun' & _ & Hin').
  exists ids, ids'. split; [exact Hrun|]. split; [exact Hrun'|].
  intros x Hx. apply Hin in Hx as ((g0 & I0 & E0 & K0) & (g1 & I1 & E1 & K1) & (g2 & I2 & E2 & K2)).
  apply Hin'. split; [|split].
  - exists g0. repeat split; try assumption. destruct Hv as [-> | ->]; [reflexivity | exact K0].
  - exists g1. repeat split; try assumption. destruct Hl as [-> | ->]; [reflexivity | exact K1].
  - exists g2. repeat split; try assumption. destruct Hd as [-> | ->]; [reflexivity | exact K2].
Qed.

(** X9. With no dimension present and distinct identifiers, [filter_gists]
    returns the identifiers of all the records, each once: a permutation of
    the list that the command builds itself when no criterion is given. *)
Theorem filter_gists_no_criteria (gists : list (Gist Id)) :
  NoDup (id <$> gists) →
  ∃ ids,
    filter_gists (relevant_args_of None None None) gists = Ok ids
    ∧ ids ≡ₚ id <$> gists.
Proof.
  forget_unused.
  intros Hnodup.
  destruct (filter_gists_typed None None None gists ltac:(discriminate))
    as (ids & Hrun & Hnd & Hin).
  exists ids. split; [exact Hrun|].
  apply NoDup_Permutation; [exact Hnd | exact Hnodup|].
  intros x. rewrite Hin, list_elem_of_fmap. cbn. split.
  - intros ((g0 & H0 & <- & _) & _). eauto.
  - intros (g0 & -> & H0). repeat split; exists g0; auto.
Qed.


(** ** More on the deletion orchestrator *)

(** The response the loop leaves is the one to the last request. *)
Lemma delete_loop_last (init : list Id) (last : Id) (response : option Response)
    (tr : list event) :
  delete_loop (init ++ [last]) response tr
  = (Ok (Some (api_delete ((tr ++ delete_events init) ++ [EvSleep 1]) (gist_url last))),
     tr ++ delete_events (init ++ [last])).
Proof.
  revert response tr. induction init as [|g rest IH]; intros response tr.
  - cbn. unfold mbind, io_bind, sleep, emit, requests_delete, mret, io_ret, gist_url.
    rewrite app_nil_r, <- app_assoc. reflexivity.
  - cbn [app delete_loop]. unfold mbind at 1. unfold io_bind at 1.
    unfold sleep at 1. unfold emit at 1. unfold mbind at 1. unfold io_bind at 1.
    unfold requests_delete at 1. rewrite IH. unfold delete_events, gist_url. cbn.
    rewrite <- !app_assoc. reflexivity.
Qed.

(** X10. With [--force] there is no prompt, and every identifier gets its
    delete request, each after a wait of 1, whatever the API answers. Only
    the answer to the last request decides how the function ends: when it
    is a 4xx or 5xx response the function raises [HTTPError] after all the
    requests, otherwise it ends normally with one tick of the progress bar
    and the final message. *)
Theorem delete_gists_forced (token : string) (init : list Id) (last : Id)
    (tr : list event) :
  delete_gists (mkArgs token true) (init ++ [last]) tr
  = (let started := tr ++ [EvBar (length (init ++ [last])); EvBarTitle "Deleting gists..."] in
     let answer := api_delete ((started ++ delete_events init) ++ [EvSleep 1]) (gist_url last) in
     if failed answer
     then (Raise HTTPError, started ++ delete_events (init ++ [last]))
     else (Ok (),
           started ++ delete_events (init ++ [last])
           ++ [EvBarTick; EvPrint "[bold red]Gists have been deleted![/bold red]"])).
Proof.
  unfold delete_gists.
  assert (Hlen : (length (init ++ [last]) =? 0) = false).
  { apply Nat.eqb_neq. rewrite length_app. cbn. lia. }
  rewrite Hlen. cbn [force negb].
  unfold mbind, io_bind, print, emit, mret, io_ret.
  rewrite <- app_assoc. cbn [app].
  replace (tr ++ [EvBar (length (init ++ [last])); EvBarTitle "Deleting gists..."])
    with ((tr ++ [EvBar (length (init ++ [last]))]) ++ [EvBarTitle "Deleting gists..."])
    by (rewrite <- app_assoc; reflexivity).
  rewrite delete_loop_last. unfold raise_for_status, lift, failed. cbn zeta.
  destruct ((400 <=? _) && _); [reflexivity|].
  rewrite <- !app_assoc. reflexivity.
Qed.

(** X11. Once the answer typed at the prompt is affirmative, the function
    goes on exactly as with [--force]: the two calls differ by the three
    events of the prompt only. *)
Theorem delete_gists_confirmed_as_forced (token : string) (gists : list Id)
    (tr : list event) :
  gists ≠ [] → affirmative typed →
  delete_gists (mkArgs token false) gists tr
  = delete_gists (mkArgs token true) gists (tr ++ prompt_events (length gists)).
Proof.
  intros Hne Hyes. unfold delete_gists.
  destruct (length gists =? 0) eqn:Hlen.
  { apply Nat.eqb_eq in Hlen. destruct gists; [congruence | discriminate]. }
  cbn [force negb]. unfold mbind, io_bind, print, emit, input, mret, io_ret.
  unfold affirmative in Hyes. rewrite bool_decide_eq_true_2 by exact Hyes.
  unfold prompt_events. rewrite <- !app_assoc. reflexivity.
Qed.


(** ** Events of the two phases *)

(** The delete requests of a call of [delete_gists]: none, or one for each
    identifier in order; and the function sends no listing request. *)
Lemma delete_gists_events (args : Args) (gists : list Id) (tr : list event) :
  ∃ r evs,
    delete_gists args gists tr = (r, tr ++ evs)
    ∧ (List.filter is_delete evs = []
       ∨ List.filter is_delete evs = (λ g, EvDelete (gist_url g)) <$> gists)
    ∧ List.filter is_get evs = [].
Proof.
  forget_unused.
  unfold delete_gists. destruct (length gists =? 0) eqn:Hlen.
  { exists (Ok ()), [EvPrint "No gists are eligible for deletion."].
    split; [reflexivity|]. split; [left|]; reflexivity. }
  assert (Hne : gists ≠ []) by (intros ->; discriminate).
  assert (Hloop : ∀ tr0, ∃ r evs,
    (emit (EvBar (length gists));;
     emit (EvBarTitle "Deleting gists...");;
     response ← delete_loop gists None;
     match response with
     | Some response => raise_for_status response
     | None => lift (Raise UnboundLocalError)
     end;;
     emit EvBarTick;;
     print "[bold red]Gists have been deleted![/bold red]") tr0 = (r, tr0 ++ evs)
    ∧ List.filter is_delete evs = (λ g, EvDelete (gist_url g)) <$> gists
    ∧ List.filter is_get evs = []).
  { intros tr0. unfold mbind, io_bind, print, emit.
    destruct (delete_loop_trace gists None
                ((tr0 ++ [EvBar (length gists)]) ++ [EvBarTitle "Deleting gists..."]))
      as (last & Hrun & Hsome).
    rewrite Hrun. destruct (Hsome Hne) as [response ->].
    unfold raise_for_status, lift.
    assert (Hgets : List.filter is_get
                      (flat_map (λ g, [EvSleep 1; EvDelete (gist_url g)]) gists) = []).
    { clear. induction gists as [|g rest IH]; [reflexivity | exact IH]. }
    destruct ((400 <=? status_code response) && (status_code response <? 600));
      do 2 eexists; (split; [rewrite <- !app_assoc; reflexivity|]);
      rewrite !List.filter_app, deletes_of_delete_trace, Hgets; cbn;
      rewrite ?app_nil_r; split; reflexivity. }
  destruct (force args); cbn [negb].
  - unfold mbind at 1. unfold io_bind at 1. unfold mret, io_ret.
    destruct (Hloop tr) as (r & evs & Hrun & Hdel & Hget).
    exists r, evs. split; [exact Hrun|]. split; [right; exact Hdel | exact Hget].
  - unfold mbind at 1. unfold io_bind at 1.
    unfold mbind at 1. unfold io_bind at 1. unfold print at 1. unfold emit at 1.
    unfold mbind at 1. unfold io_bind at 1. unfold print at 1. unfold emit at 1.
    unfold mbind at 1. unfold io_bind at 1. unfold input at 1. unfold mret, io_ret.
    destruct (bool_decide (typed ∈ ["Yes"; "Y"; "y"])).
    + set (tr1 := (_ ++ [EvInput _])).
      destruct (Hloop tr1) as (r & evs & Hrun & Hdel & Hget).
      rewrite Hrun. do 2 eexists.
      split; [unfold tr1; rewrite <- !app_assoc; reflexivity|].
      rewrite !List.filter_app. cbn. split; [right; exact Hdel | exact Hget].
    + do 2 eexists. split; [rewrite <- !app_assoc; reflexivity|].
      split; [left|]; reflexivity.
Qed.

Lemma paced_from_events (s n : nat) :
  List.filter is_delete (paced_from s n) = []
  ∧ List.filter is_input (paced_from s n) = [].
Proof.
  destruct n as [|n]; [split; reflexivity|]. cbn.
  generalize (S s). induction n as [|n IH]; intros s'; [split; reflexivity|].
  cbn. apply IH.
Qed.

(** The fetch loop started after any events: the same value, the same new
    events, and among them no delete request and no prompt. *)
Lemma cli_fetch_events (tr : list event) :
  cli_fetch tr = (fst (run cli_fetch), tr ++ snd (run cli_fetch))
  ∧ List.filter is_delete (snd (run cli_fetch)) = []
  ∧ List.filter is_input (snd (run cli_fetch)) = [].
Proof.
  unfold run, cli_fetch. rewrite !fetch_pages_seq. cbn [fst snd app].
  split; [reflexivity|].
  rewrite !List.filter_app.
  destruct (paced_from_events 1 (requested (seq 1 30))) as [-> ->].
  destruct (forallb continues (seq 1 30) && (0 <? 30)); split; reflexivity.
Qed.

(** The core of the filter on records with distinct identifiers. *)
Lemma filter_gists_members (vis : option string) (languages : option (list string))
    (date_range : option (list date)) (gists : list (Gist Id)) :
  NoDup (id <$> gists) → date_range ≠ Some [] →
  ∃ ids,
    filter_gists (relevant_args_of vis languages date_range) gists = Ok ids
    ∧ NoDup ids
    ∧ (∀ x, x ∈ ids → x ∈ id <$> gists)
    ∧ (∀ gist, gist ∈ gists → (id gist ∈ ids ↔ satisfies vis languages date_range gist)).
Proof.
  forget_unused.
  intros Hnodup Hne.
  destruct (filter_gists_typed vis languages date_range gists Hne) as (ids & Hrun & Hnd & Hin).
  exists ids. split; [exact Hrun|]. split; [exact Hnd|]. split.
  - intros x Hx. apply Hin in Hx as ((g0 & H0 & <- & _) & _).
    apply list_elem_of_fmap_2. exact H0.
  - intros gist Hgist. rewrite Hin, satisfies_iff.
    assert (Hinj : ∀ g, g ∈ gists → id g = id gist → g = gist).
    { intros g Hg Heq.
      apply list_elem_of_lookup in Hg as [i1 H1].
      apply list_elem_of_lookup in Hgist as [i2 H2].
      assert (i1 = i2).
      { eapply NoDup_lookup; [exact Hnodup| |]; rewrite list_lookup_fmap.
        - rewrite H1. reflexivity.
        - rewrite H2, Heq. reflexivity. }
      subst i2. congruence. }
    split.
    + intros ((g0 & H0 & E0 & K0) & (g1 & H1 & E1 & K1) & (g2 & H2 & E2 & K2)).
      rewrite (Hinj g0 H0 E0) in K0. rewrite (Hinj g1 H1 E1) in K1.
      rewrite (Hinj g2 H2 E2) in K2. auto.
    + intros (K0 & K1 & K2). repeat split; exists gist; auto.
Qed.


(** With [--force], the delete requests are those of all the identifiers. *)
Lemma delete_gists_forced_deletes (args : Args) (gists : list Id) (tr : list event) :
  force args = true →
  ∃ r evs,
    delete_gists args gists tr = (r, tr ++ evs)
    ∧ List.filter is_delete evs = (λ g, EvDelete (gist_url g)) <$> gists.
Proof.
  forget_unused.
  intros Hforce. unfold delete_gists. rewrite Hforce.
  destruct gists as [|g0 rest] eqn:Hgists.
  { exists (Ok ()), [EvPrint "No gists are eligible for deletion."]. split; reflexivity. }
  rewrite <- Hgists. assert (Hne : gists ≠ []) by (rewrite Hgists; discriminate).
  assert (Hlen : (length gists =? 0) = false) by (rewrite Hgists; reflexivity).
  rewrite Hlen. cbn [negb]. unfold mbind, io_bind, print, emit, mret, io_ret.
  destruct (delete_loop_trace gists None
              ((tr ++ [EvBar (length gists)]) ++ [EvBarTitle "Deleting gists..."]))
    as (last & Hrun & Hsome).
  rewrite Hrun. destruct (Hsome Hne) as [response ->].
  unfold raise_for_status, lift.
  destruct ((400 <=? status_code response) && (status_code response <? 600));
    do 2 eexists; (split; [rewrite <- !app_assoc; reflexivity|]);
    rewrite !List.filter_app, deletes_of_delete_trace; cbn;
    rewrite ?app_nil_r; reflexivity.
Qed.

Lemma filter_gists_no_gists (arg : option argument) (relevant_args : list (option argument)) :
  filter_gists (arg :: relevant_args) [] = Ok [].
Proof.
  unfold filter_gists. rewrite filter_loop_no_gists. cbn.
  rewrite intersection_of_empty. rewrite elements_empty. reflexivity.
Qed.

(** Whatever the criteria, the identifiers [filter_gists] returns are
    identifiers of the given records. *)
Lemma filter_gists_subset (vis : option string) (languages : option (list string))
    (date_range : option (list date)) (gists : list (Gist Id)) (ids : list Id) :
  filter_gists (relevant_args_of vis languages date_range) gists = Ok ids →
  ∀ x, x ∈ ids → x ∈ id <$> gists.
Proof.
  forget_unused.
  intros Hrun x Hx. destruct (decide (date_range = Some [])) as [->|Hne].
  - destruct gists as [|g rest].
    + unfold relevant_args_of in Hrun. rewrite filter_gists_no_gists in Hrun.
      injection Hrun as <-. inversion Hx.
    + rewrite filter_gists_no_dates in Hrun. discriminate.
  - destruct (filter_gists_typed vis languages date_range gists Hne)
      as (ids' & Hrun' & _ & Hin).
    rewrite Hrun in Hrun'. injection Hrun' as <-.
    apply Hin in Hx as ((g0 & H0 & <- & _) & _).
    apply list_elem_of_fmap_2. exact H0.
Qed.

End Program.

(** * The program on concrete inputs *)

Example strptime_padded_date :
  strptime_padded "2024-07-12" "%Y-%m-%d" = Some (mkDatetime (mkDate 2024 7 12) 0 0 0)
  ∧ strptime_padded "2024-02-30" "%Y-%m-%d" = None
  ∧ strptime_padded "2024-01" "%Y-%m-%d" = None.
Proof. repeat split; reflexivity. Qed.

Example strptime_padded_timestamp :
  strptime_padded "2024-07-12T09:30:05Z" "%Y-%m-%dT%H:%M:%SZ"
  = Some (mkDatetime (mkDate 2024 7 12) 9 30 5).
Proof. reflexivity. Qed.

Example create_gists_sample :
  create_gists strptime_padded sample_json
  = Ok [mkGist (VStr "A") "secret" (VStr "Clojure") (mkDate 2024 7 12);
        mkGist (VStr "B") "public" (VStr "Python") (mkDate 2024 7 10);
        mkGist (VStr "C") "public" (VStr "Unknown") (mkDate 2024 7 10)].
Proof. reflexivity. Qed.

Lemma raw_entry_well_formed (gist_id : string) (flag : option value) (label : value)
    (created_at : string) (dt : datetime) :
  strptime_padded created_at "%Y-%m-%dT%H:%M:%SZ" = Some dt →
  well_formed_raw strptime_padded (raw_entry gist_id flag label created_at).
Proof.
  intros Hdt. unfold well_formed_raw, raw_entry.
  eexists _, "main", _, [], label, created_at, dt.
  split; [reflexivity|]. destruct flag; cbn; auto.
Qed.

Lemma sample_json_well_formed : Forall (well_formed_raw strptime_padded) sample_json.
Proof. repeat constructor; eapply raw_entry_well_formed; reflexivity. Qed.

Lemma odd_flags_json_well_formed : Forall (well_formed_raw strptime_padded) odd_flags_json.
Proof. repeat constructor; eapply raw_entry_well_formed; reflexivity. Qed.

Lemma sample_gists_distinct : NoDup (id <$> sample_gists).
Proof. apply (bool_decide_unpack _). vm_compute. exact I. Qed.

(** The filter at an instance with the three dimensions present. *)
Lemma filter_gists_spec_witness :
  NoDup (id <$> sample_gists)
  ∧ Some [mkDate 2024 7 10] ≠ Some []
  ∧ ∃ ids,
      filter_gists
        (relevant_args_of (Some "public") (Some ["Python"; "SQL"]) (Some [mkDate 2024 7 10]))
        sample_gists = Ok ids
      ∧ NoDup ids
      ∧ (∀ gist, gist ∈ sample_gists →
           (id gist ∈ ids
            ↔ satisfies (Some "public") (Some ["Python"; "SQL"]) (Some [mkDate 2024 7 10]) gist))
      ∧ (∀ x, x ∈ ids → x ∈ id <$> sample_gists)
      ∧ (Some "public" = None → Some ["Python"; "SQL"] = None → Some [mkDate 2024 7 10] = None →
         ∀ x, x ∈ ids ↔ x ∈ id <$> sample_gists).
Proof.
  split; [exact sample_gists_distinct|]. split; [discriminate|].
  apply (filter_gists_spec (Some "public") (Some ["Python"; "SQL"]) (Some [mkDate 2024 7 10])
           sample_gists sample_gists_distinct).
  discriminate.
Defined.

Example filter_gists_sample :
  filter_gists
    (relevant_args_of (Some "public") (Some ["Python"; "SQL"]) (Some [mkDate 2024 7 10]))
    sample_gists = Ok ["B"].
Proof. vm_compute. reflexivity. Qed.

(** The normalizer at the sample page, and at the sample page followed by
    an entry whose file has no "language" entry. *)
Lemma create_gists_normalizes_witness :
  Forall (well_formed_raw strptime_padded) sample_json
  ∧ (∃ gists, create_gists strptime_padded sample_json = Ok gists
              ∧ length gists = length sample_json)
  ∧ create_gists strptime_padded (sample_json ++ no_language_json) = Raise KeyError.
Proof.
  split; [exact sample_json_well_formed|].
  destruct (create_gists_normalizes strptime_padded sample_json sample_json_well_formed)
    as ((gists & Hrun & Hlen & _) & Hstop).
  split.
  - exists gists. split; [exact Hrun | exact Hlen].
  - exact (Hstop no_language_entry "notes" [("filename", VStr "notes")] [] [] eq_refl eq_refl).
Defined.

(** C5 as stated fails. The entry has one file, and so is within the
    claim; the file has no "language" entry, and the function raises
    [KeyError] where the claim has a record with the language "Unknown":
    there is no list of records, let alone one record per entry. *)
Lemma create_gists_absent_language :
  (∃ name file files,
     dict_lookup no_language_entry "files" = Some (VDict ((name, VDict file) :: files))
     ∧ dict_lookup file "language" = None)
  ∧ create_gists strptime_padded no_language_json = Raise KeyError
  ∧ ¬ ∃ gists,
        create_gists strptime_padded no_language_json = Ok gists
        ∧ length gists = length no_language_json.
Proof.
  assert (Hrun : create_gists strptime_padded no_language_json = Raise KeyError)
    by reflexivity.
  split; [exists "notes", [("filename", VStr "notes")], []; split; reflexivity|].
  split; [exact Hrun|].
  intros (gists & Hok & _). rewrite Hrun in Hok. discriminate Hok.
Qed.

Example create_gists_odd_flags :
  match create_gists strptime_padded odd_flags_json with
  | Ok gists => Some (visibility <$> gists)
  | Raise _ => None
  end = Some ["secret"; "secret"; "secret"; "secret"; "public"; "public"].
Proof. reflexivity. Qed.

(** The normalizer at entries with a missing, falsy or non-boolean flag:
    six entries, six records, "secret" for the missing flag, [None], [0]
    and the empty string, "public" for "no" and [7]. *)
Lemma create_gists_visibility_truthiness_witness :
  Forall (well_formed_raw strptime_padded) odd_flags_json
  ∧ ∃ gists,
      create_gists strptime_padded odd_flags_json = Ok gists
      ∧ length gists = length odd_flags_json
      ∧ visibility <$> gists = ["secret"; "secret"; "secret"; "secret"; "public"; "public"].
Proof.
  split; [exact odd_flags_json_well_formed|].
  destruct (create_gists_visibility_truthiness strptime_padded odd_flags_json
              odd_flags_json_well_formed) as (gists & Hrun & Hlen & _).
  exists gists. split; [exact Hrun|]. split; [exact Hlen|].
  pose proof create_gists_odd_flags as Hflags. rewrite Hrun in Hflags.
  injection Hflags as Hflags. exact Hflags.
Defined.

(** The confirmation at two identifiers, the answer being "y". *)
Lemma delete_gists_confirmation_witness :
  ["a"; "b"] ≠ [] ∧ force (mkArgs "t" false) = false
  ∧ ∃ r evs,
      delete_gists refuses_a "y" (λ s, s) (mkArgs "t" false) ["a"; "b"] [] = (r, [] ++ evs)
      ∧ (Exists (λ e, is_delete e = true) evs ↔ affirmative "y").
Proof.
  split; [discriminate|]. split; [reflexivity|].
  destruct (delete_gists_confirmation refuses_a "y" (λ s : string, s) (mkArgs "t" false)
              ["a"; "b"] [] ltac:(discriminate) eq_refl) as (r & evs & Hrun & Hiff & _).
  exists r, evs. split; [exact Hrun | exact Hiff].
Defined.

Example delete_gists_answer_n :
  run (delete_gists refuses_a "n" (λ s, s) (mkArgs "t" false) ["a"; "b"])
  = (Ok (),
     [EvPrint "[bold red]Are you [underline]sure[/underline] you proceed with the deletion?[/bold red]";
      EvPrint "[bold yellow]2[/bold yellow] [bold red]gists will be deleted.[/bold red]";
      EvInput "[Y/n] "]).
Proof. reflexivity. Qed.

Example delete_gists_answer_lowercase_yes :
  List.filter is_delete
    (snd (run (delete_gists refuses_a "yes" (λ s, s) (mkArgs "t" false) ["a"; "b"]))) = [].
Proof. reflexivity. Qed.

(** C2, on the code. The API refuses the first of two deletions; the
    program still requests the second one and ends without an exception:
    only the response to the last request is looked at. *)
Theorem delete_gists_goes_on_after_failure :
  run (delete_gists refuses_a "" (λ s, s) (mkArgs "t" true) ["a"; "b"])
  = (Ok (),
     [EvBar 2; EvBarTitle "Deleting gists...";
      EvSleep 1; EvDelete "https://api.github.com/gists/a";
      EvSleep 1; EvDelete "https://api.github.com/gists/b";
      EvBarTick; EvPrint "[bold red]Gists have been deleted![/bold red]"])
  ∧ status_code (refuses_a [] "https://api.github.com/gists/a") = 500.
Proof. split; reflexivity. Qed.

(** C3, on the code. Four well-formed date strings are accepted: only a
    sequence of exactly three is refused. *)
Theorem parse_date_arguments_four_dates :
  parse_date_arguments strptime_padded four_dates
  = Ok [mkDate 2024 1 1; mkDate 2024 2 1; mkDate 2024 3 1; mkDate 2024 4 1]
  ∧ parse_date_arguments strptime_padded (take 3 four_dates) = Raise TypeError.
Proof. split; reflexivity. Qed.

Lemma last_paced_from (s n : nat) :
  last (paced_from s (S n)) = Some (EvGet 100 (s + n)).
Proof.
  revert s. induction n as [|n IH]; intros s.
  - cbn. f_equal. f_equal. lia.
  - specialize (IH (S s)). cbn in *. rewrite IH. f_equal. f_equal. lia.
Qed.

(** C4 as stated fails. Every page holding 30 entries, the loop stops at
    the cap after 30 requests and 30 waits: the last event is a wait after
    the last request, so the trace is not one of requests with waits
    between them only. *)
Lemma cli_fetch_waits_after_page_30 :
  List.filter is_get (snd (run (cli_fetch strptime_padded full_pages)))
  = EvGet 100 <$> seq 1 30
  ∧ length (List.filter is_sleep (snd (run (cli_fetch strptime_padded full_pages)))) = 30
  ∧ last (snd (run (cli_fetch strptime_padded full_pages))) = Some (EvSleep 1)
  ∧ ¬ ∃ n, snd (run (cli_fetch strptime_padded full_pages)) = paced_requests n.
Proof.
  assert (Hlast : last (snd (run (cli_fetch strptime_padded full_pages))) = Some (EvSleep 1))
    by (vm_compute; reflexivity).
  split; [vm_compute; reflexivity|]. split; [vm_compute; reflexivity|].
  split; [exact Hlast|].
  intros [n Hn]. rewrite Hn in Hlast. destruct n as [|n].
  - discriminate.
  - unfold paced_requests in Hlast. rewrite last_paced_from in Hlast. discriminate.
Qed.

Example cli_fetch_two_pages :
  snd (run (cli_fetch strptime_padded two_pages)) = [EvGet 100 1; EvSleep 1; EvGet 100 2]
  ∧ (length <$> match fst (run (cli_fetch strptime_padded two_pages)) with
                | Ok gists => Some gists
                | Raise _ => None
                end) = Some 32.
Proof. split; reflexivity. Qed.

Example cli_fetch_forbidden :
  run (cli_fetch strptime_padded forbidden) = (Raise HTTPError, [EvGet 100 1]).
Proof. reflexivity. Qed.

(** * The command as a whole *)

(** The namespace that [get_parser_args] returns: [--token], [--force],
    [--visibility], [--languages] and [--date_range], in that order. *)
Record Namespace : Type := mkNamespace {
  ns_token : option string;
  ns_force : bool;
  ns_visibility : option string;
  ns_languages : option (list string);
  ns_date_range : option (list string);
}.

(** [str(gist)] for the identifiers the API gives. *)
Definition str_of_value (v : value) : string :=
  match v with
  | VStr s => s
  | VNone => "None"
  | VBool true => "True"
  | VBool false => "False"
  | VInt n => pretty n
  | _ => "?"
  end.

(** An API that answers every token with the two sample pages and refuses
    no deletion, and one whose third page differs. *)
Definition two_pages_for (token : string) (page : nat) : Response := two_pages page.

Definition accepts_all (token : string) (history : list event) (url : string) : Response :=
  mkResponse 204 [].

Definition two_pages_then_noise (page : nat) : Response :=
  match page with
  | 1 | 2 => two_pages page
  | _ => mkResponse 500 []
  end.

(** The records of [sample_json], and what the fetch of [two_pages] gives. *)
Definition sample_records : list (Gist value) :=
  [mkGist (VStr "A") "secret" (VStr "Clojure") (mkDate 2024 7 12);
   mkGist (VStr "B") "public" (VStr "Python") (mkDate 2024 7 10);
   mkGist (VStr "C") "public" (VStr "Unknown") (mkDate 2024 7 10)].

Definition fetched_two_pages : list (Gist value) :=
  match fst (run (cli_fetch strptime_padded two_pages)) with
  | Ok gists => gists
  | Raise _ => []
  end.

(** An API with the sample entries on its first page and nothing after. *)
Definition one_page (page : nat) : Response :=
  mkResponse 200 (match page with 1 => sample_json | _ => [] end).

Definition one_page_for (token : string) (page : nat) : Response := one_page page.

Definition forbidden_for (token : string) (page : nat) : Response := forbidden page.


Section Command.

#[local] Set Default Proof Using "Type".

Variable strptime : string → string → option datetime.
(** [os.environ]. *)
Variable environ : gmap string string.
(** The responses of the API to the requests made with a token. *)
Variable api_get : string → nat → Response.
Variable api_delete : string → list event → string → Response.
Variable typed : string.
Variable str : value → string.

(** [if not args.token: ...]: the token of the run, from the option or,
    when the option is missing or empty, from the environment. *)
Definition resolve_token (args : Namespace) : result string :=
  let from_environ :=
    match environ !! "GITHUB_API_TOKEN" with
    | Some t => Ok t
    | None => Raise ValueError
    end in
  match ns_token args with
  | Some t => if String.eqb t "" then from_environ else Ok t
  | None => from_environ
  end.

(** [relevant_args[2]] once the dates are parsed. *)
Definition parse_date_range (args : Namespace) : result (option (list date)) :=
  match ns_date_range args with
  | Some date_arguments =>
      dates ← parse_date_arguments strptime date_arguments; Ok (Some dates)
  | None => Ok None
  end.

(** [all(value is None for value in relevant_args)]. *)
Definition all_none (relevant_args : list (option argument)) : bool :=
  forallb (λ value, match value with None => true | Some _ => false end) relevant_args.

Definition cli (args : Namespace) : io unit :=
  token ← lift (resolve_token args);
  date_range ← lift (parse_date_range args);
  let relevant_args := relevant_args_of (ns_visibility args) (ns_languages args) date_range in
  gists ← cli_fetch strptime (api_get token);
  if all_none relevant_args then
    let gist_ids := id <$> gists in
    delete_gists (api_delete token) typed str (mkArgs token (ns_force args)) gist_ids
  else
    gist_ids ← lift (filter_gists relevant_args gists);
    delete_gists (api_delete token) typed str (mkArgs token (ns_force args)) gist_ids.

End Command.

(** ** The fetch loop and the pages it does not request *)

Lemma fetch_pages_agree (strptime : string → string → option datetime)
    (api_get api_get' : nat → Response) (len s : nat)
    (gists : list (Gist value)) (tr : list event) :
  (∀ page, s ≤ page < s + requested strptime api_get (seq s len) →
           api_get page = api_get' page) →
  fetch_pages strptime api_get (seq s len) gists tr
  = fetch_pages strptime api_get' (seq s len) gists tr.
Proof.
  revert s gists tr. induction len as [|len IH]; intros s gists tr Hagree; [reflexivity|].
  cbn [seq] in *.
  destruct (requested_cons_pos strptime api_get s (seq (S s) len)) as [k Hk].
  assert (Hs : api_get s = api_get' s) by (apply Hagree; lia).
  cbn [fetch_pages]. unfold mbind, io_bind, requests_get, raise_for_status, lift.
  rewrite <- Hs.
  destruct ((400 <=? status_code (api_get s)) && (status_code (api_get s) <? 600)) eqn:Hst;
    [reflexivity|].
  destruct (create_gists strptime (json (api_get s))) as [gs|e] eqn:Hcg; [|reflexivity].
  destruct (length gs <? 30) eqn:Hlt; [reflexivity|].
  unfold sleep, emit. apply IH. intros page Hpage. apply Hagree.
  assert (Hc : continues strptime api_get s = true).
  { unfold continues, page_gists. rewrite Hst, Hcg.
    apply Nat.ltb_ge in Hlt. apply Nat.leb_le. exact Hlt. }
  rewrite (requested_cons_continue _ _ _ _ Hc). lia.
Qed.

(** X12. The fetch loop looks at the pages it requests and at no other:
    two APIs that agree on the pages 1..n, n being the number of pages
    requested from the first, give the same records and the same events.
    In particular what lies beyond page 30 never reaches the program. *)
Theorem cli_fetch_ignores_other_pages (strptime : string → string → option datetime)
    (api_get api_get' : nat → Response) (tr : list event) :
  (∀ page, 1 ≤ page ≤ pages_fetched strptime api_get → api_get page = api_get' page) →
  cli_fetch strptime api_get tr = cli_fetch strptime api_get' tr.
Proof.
  intros Hagree. unfold cli_fetch. apply fetch_pages_agree.
  intros page Hpage. apply Hagree. unfold pages_fetched. lia.
Qed.

(** ** The command *)

Section CommandFacts.

#[local] Set Default Proof Using "Type".

Variable strptime : string → string → option datetime.
Variable environ : gmap string string.
Variable api_get : string → nat → Response.
Variable api_delete : string → list event → string → Response.
Variable typed : string.
Variable str : value → string.

Lemma bind_lift_Ok {A B : Type} (a : A) (k : A → io B) (tr : list event) :
  (lift (Ok a) ≫= k) tr = k a tr.
Proof. reflexivity. Qed.

Lemma bind_lift_Raise {A B : Type} (e : exn) (k : A → io B) (tr : list event) :
  (lift (Raise e) ≫= k) tr = (Raise e, tr).
Proof. reflexivity. Qed.

Lemma bind_unfold {A B : Type} (m : io A) (k : A → io B) (tr : list event) :
  (m ≫= k) tr
  = match m tr with
    | (Ok a, tr') => k a tr'
    | (Raise e, tr') => (Raise e, tr')
    end.
Proof. reflexivity. Qed.

(** The command once the token and the dates are known. *)
Lemma cli_after_preflight (args : Namespace) (token : string)
    (date_range : option (list date)) :
  resolve_token environ args = Ok token →
  parse_date_range strptime args = Ok date_range →
  run (cli strptime environ api_get api_delete typed str args)
  = match fst (run (cli_fetch strptime (api_get token))) with
    | Raise e => (Raise e, snd (run (cli_fetch strptime (api_get token))))
    | Ok gists =>
        if all_none (relevant_args_of (ns_visibility args) (ns_languages args) date_range)
        then delete_gists (api_delete token) typed str (mkArgs token (ns_force args))
               (id <$> gists) (snd (run (cli_fetch strptime (api_get token))))
        else match filter_gists
                     (relevant_args_of (ns_visibility args) (ns_languages args) date_range)
                     gists with
             | Raise e => (Raise e, snd (run (cli_fetch strptime (api_get token))))
             | Ok gist_ids =>
                 delete_gists (api_delete token) typed str (mkArgs token (ns_force args))
                   gist_ids (snd (run (cli_fetch strptime (api_get token))))
             end
    end.
Proof.
  intros Htoken Hdates. unfold run at 1. unfold cli.
  rewrite Htoken, bind_lift_Ok, Hdates, bind_lift_Ok, bind_unfold.
  destruct (cli_fetch_events strptime (api_get token) []) as (Hfetch & _ & _).
  rewrite Hfetch. rewrite app_nil_l.
  destruct (fst (run (cli_fetch strptime (api_get token)))) as [gists|e]; [|reflexivity].
  destruct (all_none _); [reflexivity|].
  rewrite bind_unfold. unfold lift. destruct (filter_gists _ gists); reflexivity.
Qed.

(** X13. Without a token on the command line (none, or an empty one) and
    without [GITHUB_API_TOKEN] in the environment, the command raises
    [ValueError] before it does anything: no request, no prompt, no
    message, whatever the other options are. *)
Theorem cli_missing_token (args : Namespace) :
  ns_token args = None ∨ ns_token args = Some "" →
  environ !! "GITHUB_API_TOKEN" = None →
  run (cli strptime environ api_get api_delete typed str args) = (Raise ValueError, []).
Proof.
  intros Htoken Henv.
  assert (Hres : resolve_token environ args = Raise ValueError).
  { unfold resolve_token. rewrite Henv. destruct Htoken as [-> | ->]; reflexivity. }
  unfold run, cli. rewrite Hres. apply bind_lift_Raise.
Qed.

(** X15. When the token is known and the strings of [--date_range] are
    refused by [parse_date_arguments], the command stops with that
    exception before the first request: nothing is fetched and nothing is
    deleted. *)
Theorem cli_bad_dates_before_network (args : Namespace) (token : string)
    (date_arguments : list string) (e : exn) :
  resolve_token environ args = Ok token →
  ns_date_range args = Some date_arguments →
  parse_date_arguments strptime date_arguments = Raise e →
  run (cli strptime environ api_get api_delete typed str args) = (Raise e, []).
Proof.
  intros Htoken Hrange Hparse.
  assert (Hdates : parse_date_range strptime args = Raise e).
  { unfold parse_date_range. rewrite Hrange, Hparse. reflexivity. }
  unfold run, cli. rewrite Htoken, bind_lift_Ok, Hdates. apply bind_lift_Raise.
Qed.

(** X16. When the fetch fails, the command fails with the same exception
    and has done nothing but the fetch: it has sent no delete request and
    has not prompted. *)
Theorem cli_fetch_failure_deletes_nothing (args : Namespace) (token : string)
    (date_range : option (list date)) (e : exn) :
  resolve_token environ args = Ok token →
  parse_date_range strptime args = Ok date_range →
  fst (run (cli_fetch strptime (api_get token))) = Raise e →
  run (cli strptime environ api_get api_delete typed str args)
  = (Raise e, snd (run (cli_fetch strptime (api_get token))))
  ∧ List.filter is_delete (snd (run (cli strptime environ api_get api_delete typed str args))) = []
  ∧ List.filter is_input (snd (run (cli strptime environ api_get api_delete typed str args))) = [].
Proof.
  intros Htoken Hdates Hfetch.
  rewrite (cli_after_preflight args token date_range Htoken Hdates), Hfetch. cbn [snd].
  destruct (cli_fetch_events strptime (api_get token) []) as (_ & Hdel & Hinp).
  auto.
Qed.

(** X17. With no criterion and [--force], the command sends one delete
    request for every record it fetched, in the order of the fetch and
    without looking at the records: an identifier that occurs twice is
    requested twice. *)
Theorem cli_no_criteria_deletes_everything (args : Namespace) (token : string)
    (gists : list (Gist value)) :
  resolve_token environ args = Ok token →
  ns_visibility args = None → ns_languages args = None → ns_date_range args = None →
  ns_force args = true →
  fst (run (cli_fetch strptime (api_get token))) = Ok gists →
  List.filter is_delete (snd (run (cli strptime environ api_get api_delete typed str args)))
  = (λ gist, EvDelete (gist_url str (id gist))) <$> gists.
Proof.
  intros Htoken Hvis Hlang Hrange Hforce Hfetch.
  assert (Hdates : parse_date_range strptime args = Ok None)
    by (unfold parse_date_range; rewrite Hrange; reflexivity).
  rewrite (cli_after_preflight args token None Htoken Hdates), Hfetch, Hvis, Hlang.
  cbn [all_none relevant_args_of forallb fmap option_fmap option_map andb].
  destruct (delete_gists_forced_deletes (api_delete token) typed str
              (mkArgs token (ns_force args)) (id <$> gists)
              (snd (run (cli_fetch strptime (api_get token)))) Hforce)
    as (r & evs & Hrun & Hdel).
  rewrite Hrun. cbn [snd]. rewrite List.filter_app, Hdel.
  destruct (cli_fetch_events strptime (api_get token) []) as (_ & -> & _).
  cbn [app]. rewrite <- list_fmap_compose. reflexivity.
Qed.

(** X18. With a criterion, [--force] and records whose identifiers are
    strings, all distinct, the delete requests of the command are exactly
    those of the records that satisfy every criterion given: a fetched
    record has its delete request if and only if it satisfies them, and no
    identifier is requested twice. The order of the requests is not
    stated. *)
Theorem cli_deletes_the_matches (args : Namespace) (token : string)
    (date_range : option (list date)) (gists : list (Gist value)) :
  resolve_token environ args = Ok token →
  parse_date_range strptime args = Ok date_range →
  date_range ≠ Some [] →
  all_none (relevant_args_of (ns_visibility args) (ns_languages args) date_range) = false →
  ns_force args = true →
  fst (run (cli_fetch strptime (api_get token))) = Ok gists →
  Forall (λ gist, ∃ s, id gist = VStr s) gists →
  NoDup (id <$> gists) →
  ∃ ids,
    List.filter is_delete (snd (run (cli strptime environ api_get api_delete typed str args)))
    = (λ x, EvDelete (gist_url str x)) <$> ids
    ∧ NoDup ids
    ∧ (∀ x, x ∈ ids → x ∈ id <$> gists)
    ∧ (∀ gist, gist ∈ gists →
         (id gist ∈ ids
          ↔ satisfies (ns_visibility args) (ns_languages args) date_range gist)).
Proof.
  intros Htoken Hdates Hne Hsome Hforce Hfetch _ Hnodup.
  destruct (filter_gists_members (ns_visibility args) (ns_languages args) date_range gists
              Hnodup Hne) as (ids & Hfilter & Hnd & Hsub & Hin).
  exists ids.
  rewrite (cli_after_preflight args token date_range Htoken Hdates), Hfetch, Hsome, Hfilter.
  destruct (delete_gists_forced_deletes (api_delete token) typed str
              (mkArgs token (ns_force args)) ids
              (snd (run (cli_fetch strptime (api_get token)))) Hforce)
    as (r & evs & Hrun & Hdel).
  rewrite Hrun. cbn [snd]. rewrite List.filter_app, Hdel.
  destruct (cli_fetch_events strptime (api_get token) []) as (_ & -> & _).
  cbn [app]. auto.
Qed.

(** X19. The command never asks for the deletion of a gist it did not
    fetch: whatever the options and the answer at the prompt, every delete
    request of a run is for the identifier of a record of the fetch, which
    therefore succeeded. *)
Theorem cli_deletes_only_fetched (args : Namespace) (token : string) (url : string) :
  resolve_token environ args = Ok token →
  EvDelete url ∈ snd (run (cli strptime environ api_get api_delete typed str args)) →
  ∃ gists gist,
    fst (run (cli_fetch strptime (api_get token))) = Ok gists
    ∧ gist ∈ gists ∧ url = gist_url str (id gist).
Proof.
  intros Htoken Hin.
  destruct (cli_fetch_events strptime (api_get token) []) as (_ & Hnodel & _).
  assert (Hfetched : ¬ EvDelete url ∈ snd (run (cli_fetch strptime (api_get token)))).
  { intros Hmem. apply list_elem_of_In in Hmem.
    assert (Hf : In (EvDelete url)
                    (List.filter is_delete (snd (run (cli_fetch strptime (api_get token))))))
      by (apply filter_In; split; [exact Hmem | reflexivity]).
    rewrite Hnodel in Hf. exact Hf. }
  assert (Hdelete : ∀ a ids,
    EvDelete url ∈ snd (delete_gists (api_delete token) typed str a ids
                          (snd (run (cli_fetch strptime (api_get token))))) →
    ∃ x, x ∈ ids ∧ url = gist_url str x).
  { intros a ids Hmem.
    destruct (delete_gists_events (api_delete token) typed str a ids
                (snd (run (cli_fetch strptime (api_get token)))))
      as (r & evs & Hrun & Hdel & _).
    rewrite Hrun in Hmem. cbn [snd] in Hmem.
    apply elem_of_app in Hmem as [Hmem|Hmem]; [contradiction|].
    apply list_elem_of_In in Hmem.
    assert (Hf : In (EvDelete url) (List.filter is_delete evs))
      by (apply filter_In; split; [exact Hmem | reflexivity]).
    destruct Hdel as [Hdel|Hdel]; rewrite Hdel in Hf; [destruct Hf|].
    apply list_elem_of_In, list_elem_of_fmap in Hf as (x & [= ->] & Hx). eauto. }
  destruct (parse_date_range strptime args) as [date_range|e] eqn:Hdates.
  - rewrite (cli_after_preflight args token date_range Htoken Hdates) in Hin.
    destruct (fst (run (cli_fetch strptime (api_get token)))) as [gists|e] eqn:Hfetch;
      [|contradiction].
    exists gists.
    destruct (all_none _).
    + apply Hdelete in Hin as (x & Hx & ->).
      apply list_elem_of_fmap in Hx as (gist & -> & Hgist). eauto.
    + destruct (filter_gists _ gists) as [ids|e] eqn:Hfilter; [|contradiction].
      apply Hdelete in Hin as (x & Hx & ->).
      apply (filter_gists_subset _ _ _ _ _ Hfilter) in Hx.
      apply list_elem_of_fmap in Hx as (gist & -> & Hgist). eauto.
  - unfold run, cli in Hin.
    rewrite Htoken, bind_lift_Ok, Hdates, bind_lift_Raise in Hin. inversion Hin.
Qed.

End CommandFacts.


(** * Further runs on concrete inputs *)

Lemma create_gists_invariant_witness :
  create_gists strptime_padded sample_json = Ok sample_records
  ∧ length sample_records = length sample_json.
Proof.
  assert (Hrun : create_gists strptime_padded sample_json = Ok sample_records)
    by (vm_compute; reflexivity).
  split; [exact Hrun|].
  exact (proj1 (create_gists_invariant strptime_padded sample_json sample_records Hrun)).
Defined.

Lemma create_gists_malformed_entry_witness :
  Forall (well_formed_raw strptime_padded) sample_json
  ∧ create_gists strptime_padded (sample_json ++ VDict [("id", VStr "Z")] :: sample_json)
    = Raise KeyError.
Proof.
  split; [exact sample_json_well_formed|].
  exact (proj1 (create_gists_malformed_entry strptime_padded sample_json sample_json
                  [("id", VStr "Z")] sample_json_well_formed) eq_refl).
Defined.

Lemma filter_gists_shared_ids_witness :
  Some [mkDate 2024 7 10; mkDate 2024 7 12] ≠ Some []
  ∧ ∃ ids,
      filter_gists
        (relevant_args_of (Some "public") None (Some [mkDate 2024 7 10; mkDate 2024 7 12]))
        sample_gists = Ok ids
      ∧ NoDup ids.
Proof.
  split; [discriminate|].
  destruct (filter_gists_shared_ids (Some "public") None
              (Some [mkDate 2024 7 10; mkDate 2024 7 12]) sample_gists ltac:(discriminate))
    as (ids & Hrun & Hnd & _).
  exists ids. split; [exact Hrun | exact Hnd].
Defined.

Lemma filter_gists_permutation_witness :
  sample_gists ≡ₚ reverse sample_gists
  ∧ match filter_gists (relevant_args_of (Some "public") None None) sample_gists,
          filter_gists (relevant_args_of (Some "public") None None) (reverse sample_gists) with
    | Ok ids, Ok ids' => ids ≡ₚ ids'
    | Raise e, Raise e' => e = e'
    | _, _ => False
    end.
Proof.
  assert (Hperm : sample_gists ≡ₚ reverse sample_gists)
    by (symmetry; apply reverse_Permutation).
  split; [exact Hperm|].
  exact (filter_gists_permutation (Some "public") None None _ _ Hperm).
Defined.

Lemma filter_gists_weaken_witness :
  ∃ ids ids',
    filter_gists (relevant_args_of (Some "public") (Some ["Python"]) None) sample_gists = Ok ids
    ∧ filter_gists (relevant_args_of None (Some ["Python"]) None) sample_gists = Ok ids'
    ∧ ids ⊆ ids'.
Proof.
  apply (filter_gists_weaken (Some "public") None (Some ["Python"]) (Some ["Python"])
           None None sample_gists); [discriminate | left | right | right]; reflexivity.
Defined.

Lemma filter_gists_no_criteria_witness :
  NoDup (id <$> sample_gists)
  ∧ ∃ ids, filter_gists (relevant_args_of None None None) sample_gists = Ok ids
           ∧ ids ≡ₚ id <$> sample_gists.
Proof.
  split; [exact sample_gists_distinct|].
  exact (filter_gists_no_criteria sample_gists sample_gists_distinct).
Defined.

Lemma affirmative_Y : affirmative "Y".
Proof. apply (bool_decide_unpack _). vm_compute. exact I. Qed.

Lemma delete_gists_confirmed_as_forced_witness :
  ["a"; "b"] ≠ [] ∧ affirmative "Y"
  ∧ delete_gists refuses_a "Y" (λ s, s) (mkArgs "t" false) ["a"; "b"] []
    = delete_gists refuses_a "Y" (λ s, s) (mkArgs "t" true) ["a"; "b"]
        ([] ++ prompt_events (length ["a"; "b"])).
Proof.
  split; [discriminate|]. split; [exact affirmative_Y|].
  exact (delete_gists_confirmed_as_forced refuses_a "Y" (λ s : string, s) "t" ["a"; "b"] []
           ltac:(discriminate) affirmative_Y).
Defined.

Lemma two_pages_agree (page : nat) :
  1 ≤ page ≤ pages_fetched strptime_padded two_pages →
  two_pages page = two_pages_then_noise page.
Proof.
  assert (Hn : pages_fetched strptime_padded two_pages = 2) by (vm_compute; reflexivity).
  rewrite Hn. intros Hpage. destruct page as [|[|[|page]]]; try lia; reflexivity.
Qed.

Lemma cli_fetch_ignores_other_pages_witness :
  (∀ page, 1 ≤ page ≤ pages_fetched strptime_padded two_pages →
           two_pages page = two_pages_then_noise page)
  ∧ cli_fetch strptime_padded two_pages []
    = cli_fetch strptime_padded two_pages_then_noise [].
Proof.
  split; [exact two_pages_agree|].
  exact (cli_fetch_ignores_other_pages strptime_padded two_pages two_pages_then_noise []
           two_pages_agree).
Defined.

Lemma cli_missing_token_witness :
  run (cli strptime_padded ∅ two_pages_for accepts_all "" str_of_value
         (mkNamespace (Some "") true None None (Some ["2024-01-01"])))
  = (Raise ValueError, []).
Proof.
  apply cli_missing_token; [right; reflexivity | apply lookup_empty].
Defined.


Lemma cli_bad_dates_before_network_witness :
  run (cli strptime_padded ∅ two_pages_for accepts_all "" str_of_value
         (mkNamespace (Some "t") true None None (Some ["2024-01-01"; "01/02/2024"])))
  = (Raise ValueError, []).
Proof.
  apply (cli_bad_dates_before_network strptime_padded ∅ two_pages_for accepts_all ""
           str_of_value _ "t" ["2024-01-01"; "01/02/2024"]);
    [reflexivity | reflexivity | vm_compute; reflexivity].
Defined.

Lemma forbidden_fetch_fails :
  fst (run (cli_fetch strptime_padded (forbidden_for "t"))) = Raise HTTPError.
Proof. vm_compute. reflexivity. Qed.

Lemma cli_fetch_failure_deletes_nothing_witness :
  fst (run (cli_fetch strptime_padded (forbidden_for "t"))) = Raise HTTPError
  ∧ List.filter is_delete
      (snd (run (cli strptime_padded ∅ forbidden_for accepts_all "" str_of_value
                   (mkNamespace (Some "t") true None None None)))) = [].
Proof.
  split; [exact forbidden_fetch_fails|].
  exact (proj1 (proj2 (cli_fetch_failure_deletes_nothing strptime_padded ∅ forbidden_for
                         accepts_all "" str_of_value
                         (mkNamespace (Some "t") true None None None) "t" None HTTPError
                         eq_refl eq_refl forbidden_fetch_fails))).
Defined.

Lemma two_pages_fetched :
  fst (run (cli_fetch strptime_padded (two_pages_for "t"))) = Ok fetched_two_pages.
Proof. vm_compute. reflexivity. Qed.

Lemma cli_no_criteria_deletes_everything_witness :
  fst (run (cli_fetch strptime_padded (two_pages_for "t"))) = Ok fetched_two_pages
  ∧ List.filter is_delete
      (snd (run (cli strptime_padded ∅ two_pages_for accepts_all "" str_of_value
                   (mkNamespace (Some "t") true None None None))))
    = (λ gist, EvDelete (gist_url str_of_value (id gist))) <$> fetched_two_pages.
Proof.
  split; [exact two_pages_fetched|].
  exact (cli_no_criteria_deletes_everything strptime_padded ∅ two_pages_for accepts_all ""
           str_of_value (mkNamespace (Some "t") true None None None) "t" fetched_two_pages
           eq_refl eq_refl eq_refl eq_refl eq_refl two_pages_fetched).
Defined.

Lemma one_page_fetched :
  fst (run (cli_fetch strptime_padded (one_page_for "t"))) = Ok sample_records.
Proof. vm_compute. reflexivity. Qed.

Lemma sample_records_distinct : NoDup (id <$> sample_records).
Proof. apply (bool_decide_unpack _). vm_compute. exact I. Qed.

Lemma sample_records_string_ids : Forall (λ gist, ∃ s, id gist = VStr s) sample_records.
Proof. repeat constructor; eexists; reflexivity. Qed.

Lemma cli_deletes_the_matches_witness :
  Forall (λ gist, ∃ s, id gist = VStr s) sample_records
  ∧ NoDup (id <$> sample_records)
  ∧ ∃ ids,
      List.filter is_delete
        (snd (run (cli strptime_padded ∅ one_page_for accepts_all "" str_of_value
                     (mkNamespace (Some "t") true (Some "public") None (Some ["2024-07-10"])))))
      = (λ x, EvDelete (gist_url str_of_value x)) <$> ids
      ∧ NoDup ids.
Proof.
  split; [exact sample_records_string_ids|].
  split; [exact sample_records_distinct|].
  destruct (cli_deletes_the_matches strptime_padded ∅ one_page_for accepts_all ""
              str_of_value
              (mkNamespace (Some "t") true (Some "public") None (Some ["2024-07-10"]))
              "t" (Some [mkDate 2024 7 10]) sample_records
              eq_refl ltac:(vm_compute; reflexivity) ltac:(discriminate) eq_refl eq_refl
              one_page_fetched sample_records_string_ids sample_records_distinct)
    as (ids & Hrun & Hnd & _).
  exists ids. split; [exact Hrun | exact Hnd].
Defined.

Lemma one_page_run_deletes_A :
  EvDelete "https://api.github.com/gists/A"
  ∈ snd (run (cli strptime_padded ∅ one_page_for accepts_all "" str_of_value
                (mkNamespace (Some "t") true None None None))).
Proof. apply (bool_decide_unpack _). vm_compute. exact I. Qed.

Lemma cli_deletes_only_fetched_witness :
  ∃ gists gist,
    fst (run (cli_fetch strptime_padded (one_page_for "t"))) = Ok gists
    ∧ gist ∈ gists
    ∧ "https://api.github.com/gists/A" = gist_url str_of_value (id gist).
Proof.
  exact (cli_deletes_only_fetched strptime_padded ∅ one_page_for accepts_all ""
           str_of_value (mkNamespace (Some "t") true None None None) "t"
           "https://api.github.com/gists/A" eq_refl one_page_run_deletes_A).
Defined.
